(** * Filipino emigration workbooks: the cleaning pipelines of [app.py]

    A shallow embedding of the data-cleaning code of [app.py] (one function
    per workbook: age, all countries, major countries, occupation, sex,
    civil status, education, place of origin) and the properties its
    specification states about it.

    Modelling conventions.
    - A pandas [DataFrame] is its list of column labels and its rows, each
      row a list of cells in column order.  The row index plays no part in
      the cleaning code and is left out.
    - A cell is a missing value ([NaN]), an integer, a float or a text.
      Floats are modelled as finite rationals: rounding, infinities and the
      64-bit range of [astype(int)] are outside the model.  A frame is
      given as pandas holds it after loading: its rows have one cell per
      column, its labels are distinct (the properties that need it say
      so), and a cell of a column that pandas stores as floats is a float.
    - Labels and texts are ASCII strings.
    - An exception is the result [None].  The pipelines run inside [try]
      blocks that report it with [st.error]; the one piece of code that
      runs outside, the chart of a cleaned sheet, is modelled with the
      exception leaving the function.
    - The two library routines the code relies on for reading numbers out
      of text ([pd.to_numeric]) and for printing a float ([str]) are the
      fields of the class [Pandas]. *)

From Stdlib Require Import ZArith QArith List String Ascii Bool Lia DecimalString.
Import ListNotations.

Open Scope string_scope.
Open Scope list_scope.
Open Scope Z_scope.

(* ================================================================== *)
(** ** Text *)

Module Text.

(** [str.isspace] on one ASCII character: tab, line feed, vertical tab,
    form feed, carriage return, the four separators 28..31 and space. *)
Definition isspace (c : ascii) : bool :=
  let n := nat_of_ascii c in
  ((9 <=? n) && (n <=? 13) || (28 <=? n) && (n <=? 32))%nat.

(** [\d] on one ASCII character. *)
Definition isdigit (c : ascii) : bool :=
  let n := nat_of_ascii c in ((48 <=? n) && (n <=? 57))%nat.

Definition upper_char (c : ascii) : ascii :=
  let n := nat_of_ascii c in
  if ((97 <=? n) && (n <=? 122))%nat then ascii_of_nat (n - 32) else c.

(** [str.upper]. *)
Fixpoint upper (s : string) : string :=
  match s with
  | EmptyString => EmptyString
  | String c t => String (upper_char c) (upper t)
  end.

Fixpoint lstrip (s : string) : string :=
  match s with
  | EmptyString => EmptyString
  | String c t => if isspace c then lstrip t else s
  end.

Fixpoint rstrip (s : string) : string :=
  match s with
  | EmptyString => EmptyString
  | String c t =>
      match rstrip t with
      | EmptyString => if isspace c then EmptyString else String c EmptyString
      | t' => String c t'
      end
  end.

(** [str.strip]. *)
Definition strip (s : string) : string := rstrip (lstrip s).

(** [sub in s]: [sub] occurs in [s] as a contiguous substring. *)
Fixpoint contains (sub s : string) : bool :=
  prefix sub s ||
  match s with
  | EmptyString => false
  | String _ t => contains sub t
  end.

(** A literal searched without regard to case (the regular-expression
    flag [IGNORECASE] on a literal, ASCII only). *)
Definition contains_ci (tok s : string) : bool :=
  contains (upper tok) (upper s).

(** [re.match] of a literal prefix without regard to case. *)
Definition startswith_ci (tok s : string) : bool :=
  prefix (upper tok) (upper s).

Fixpoint all_chars (p : ascii -> bool) (s : string) : bool :=
  match s with
  | EmptyString => true
  | String c t => p c && all_chars p t
  end.

(** Removes every character satisfying [p] ([str.replace] of a character
    class by the empty string). *)
Fixpoint remove_chars (p : ascii -> bool) (s : string) : string :=
  match s with
  | EmptyString => EmptyString
  | String c t => if p c then remove_chars p t else String c (remove_chars p t)
  end.

Fixpoint map_chars (f : ascii -> ascii) (s : string) : string :=
  match s with
  | EmptyString => EmptyString
  | String c t => String (f c) (map_chars f t)
  end.

Definition nondigit (c : ascii) : bool := negb (isdigit c).

(** Value of a run of decimal digits, most significant first. *)
Fixpoint digits_value_from (acc : Z) (s : string) : Z :=
  match s with
  | EmptyString => acc
  | String c t => digits_value_from (10 * acc + (Z.of_nat (nat_of_ascii c) - 48)) t
  end.

Definition digits_value (s : string) : Z := digits_value_from 0 s.

(** Longest prefix of [s] made of digits. *)
Fixpoint take_digits (s : string) : string :=
  match s with
  | EmptyString => EmptyString
  | String c t => if isdigit c then String c (take_digits t) else EmptyString
  end.

(** [re.search(r"(\d+)", s)]: the first maximal run of digits of [s],
    wherever it starts. *)
Fixpoint first_digits (s : string) : option string :=
  match s with
  | EmptyString => None
  | String c t => if isdigit c then Some (take_digits s) else first_digits t
  end.

(** Matches the literal [lit] at the start of [s] without regard to case
    and returns what follows it. *)
Fixpoint match_ci (lit s : string) : option string :=
  match lit, s with
  | EmptyString, _ => Some s
  | String a lit', String b s' =>
      if Ascii.eqb (upper_char a) (upper_char b) then match_ci lit' s' else None
  | String _ _, EmptyString => None
  end.

(** The anchor [$] of Python's [re]: the end of the text, or the position
    before a line feed that ends the text. *)
Definition at_dollar (s : string) : bool :=
  match s with
  | EmptyString => true
  | String c EmptyString => Ascii.eqb c "010"%char
  | _ => false
  end.

(** [re.match(r"(?i)^lit$", s)]. *)
Definition match_word_ci (lit s : string) : bool :=
  match match_ci lit s with
  | Some rest => at_dollar rest
  | None => false
  end.

(** [re.match(r"(?i)^w1\s*w2$", s)]: the two words, any white space
    between them. *)
Definition match_two_words_ci (w1 w2 s : string) : bool :=
  match match_ci w1 s with
  | Some rest => match_word_ci w2 (lstrip rest)
  | None => false
  end.


(** [re.match(r"^\d{4}$", s)]. *)
Definition match_year (s : string) : bool :=
  match s with
  | String a (String b (String c (String d rest))) =>
      isdigit a && isdigit b && isdigit c && isdigit d && at_dollar rest
  | _ => false
  end.

(** [int(s)] on a text accepted by [match_year]: the four digits. *)
Definition year_value (s : string) : Z := digits_value (take_digits s).

(** [str.replace] of the pattern [\.0$] by the empty text, on a text
    without trailing white space: a final [.0] is removed. *)
Fixpoint strip_dot_zero (s : string) : string :=
  match s with
  | EmptyString => EmptyString
  | String c t => if String.eqb s ".0" then EmptyString else String c (strip_dot_zero t)
  end.

(** Decimal text of an integer, as [str] prints it. *)
Definition of_Z (z : Z) : string := NilZero.string_of_int (Z.to_int z).

End Text.

(* ================================================================== *)
(** ** Cells and frames *)

Inductive cell : Type :=
| NaN
| Int (z : Z)
| Flt (q : Q)
| Str (s : string).

Definition row : Type := list cell.

Record DataFrame : Type := mkDataFrame {
  columns : list string;
  rows : list row
}.

(** Every row has one cell per column. *)
Definition rectangular (df : DataFrame) : Prop :=
  Forall (fun r : row => List.length r = List.length (columns df)) (rows df).

(** [notna] on a cell. *)
Definition notna (c : cell) : bool :=
  match c with NaN => false | _ => true end.

Definition get (r : row) (j : nat) : cell := nth j r NaN.

(** Sequencing of steps that may raise. *)
Definition bind {A B : Type} (m : option A) (k : A -> option B) : option B :=
  match m with
  | Some a => k a
  | None => None
  end.

Notation "x <- m ;; k" := (bind m (fun x => k))
  (at level 61, m at next level, right associativity).

(** The library routines the cleaning code calls on single values. *)
Class Pandas : Type := {
  (** [pd.to_numeric] on a text: the number it denotes, if any. *)
  parse_number : string -> option Q;
  (** [str(x)] on a float. *)
  float_str : Q -> string
}.

Section Cleaning.

Context {lib : Pandas}.

(** [astype(str)] on a cell: texts are kept, a missing value prints as
    [nan]. *)
Definition astype_str (c : cell) : string :=
  match c with
  | NaN => "nan"
  | Int z => Text.of_Z z
  | Flt q => float_str q
  | Str s => s
  end.

(** [pd.to_numeric(errors="coerce")] on a cell; [None] is the missing
    value it leaves where nothing can be read. *)
Definition to_numeric (c : cell) : option Q :=
  match c with
  | NaN => None
  | Int z => Some (inject_Z z)
  | Flt q => Some q
  | Str s => parse_number s
  end.

(** [astype(int)] on a finite number: truncation towards zero. *)
Definition astype_int (q : Q) : Z := Z.quot (Qnum q) (Z.pos (Qden q)).

(** [.apply(pd.to_numeric, errors="coerce").fillna(0).astype(int)] on one
    cell. *)
Definition coerce_int (c : cell) : cell :=
  Int (astype_int (match to_numeric c with Some q => q | None => 0%Q end)).

(** [.apply(pd.to_numeric, errors="coerce").fillna(0)] on one cell. *)
Definition coerce_num (c : cell) : cell :=
  Flt (match to_numeric c with Some q => q | None => 0%Q end).

(** [pd.to_numeric(errors="coerce")] on one cell, as a cell. *)
Definition numeric_cell (c : cell) : cell :=
  match to_numeric c with Some q => Flt q | None => NaN end.

(** Numeric value of a cell in a sum ([fillna(0)], or [sum] skipping
    missing values). *)
Definition cell_value (c : cell) : Q :=
  match c with
  | Int z => inject_Z z
  | Flt q => q
  | _ => 0%Q
  end.

(** *** Column and row selection *)

(** Position of the first column labelled [name]. *)
Fixpoint col_index (name : string) (cols : list string) : option nat :=
  match cols with
  | [] => None
  | c :: t => if String.eqb c name then Some O else option_map S (col_index name t)
  end.

(** Keeps the entries of [l] whose flag in [mask] is set. *)
Fixpoint select {A : Type} (mask : list bool) (l : list A) : list A :=
  match mask, l with
  | b :: m, x :: t => if b then x :: select m t else select m t
  | _, _ => []
  end.

Definition select_columns (mask : list bool) (df : DataFrame) : DataFrame :=
  {| columns := select mask (columns df);
     rows := map (select mask) (rows df) |}.

Definition filter_rows (p : row -> bool) (df : DataFrame) : DataFrame :=
  {| columns := columns df; rows := filter p (rows df) |}.

(** [dropna(how="all")]: drops the rows whose cells are all missing. *)
Definition dropna_rows (df : DataFrame) : DataFrame :=
  filter_rows (existsb notna) df.

(** Column [j] has a value in some row. *)
Definition column_has_value (rs : list row) (j : nat) : bool :=
  existsb (fun r => notna (get r j)) rs.

(** [dropna(axis=1, how="all")]: drops the columns that hold no value in
    any row (all of them when there is no row). *)
Definition dropna_cols (df : DataFrame) : DataFrame :=
  select_columns
    (map (column_has_value (rows df)) (seq 0 (List.length (columns df)))) df.

(** [df.iloc[:, :n]; df.columns = names]. *)
Definition take_columns (n : nat) (names : list string) (df : DataFrame) : DataFrame :=
  {| columns := names; rows := map (firstn n) (rows df) |}.

(** Applies [f] to the cell at position [j] of a row. *)
Fixpoint update_at (j : nat) (f : cell -> cell) (r : row) : row :=
  match r, j with
  | [], _ => []
  | c :: t, O => f c :: t
  | c :: t, S j' => c :: update_at j' f t
  end.

Definition map_column (j : nat) (f : cell -> cell) (df : DataFrame) : DataFrame :=
  {| columns := columns df; rows := map (update_at j f) (rows df) |}.

(** Applies [f] to the cells of every column whose label is not [key]:
    [cols = [c for c in df.columns if c != key]; df[cols] = f(df[cols])]. *)
Fixpoint map_except (key : string) (f : cell -> cell)
    (cols : list string) (r : row) : row :=
  match cols, r with
  | n :: cols', c :: r' =>
      (if String.eqb n key then c else f c) :: map_except key f cols' r'
  | _, _ => r
  end.

Definition coerce_except (key : string) (f : cell -> cell) (df : DataFrame) : DataFrame :=
  {| columns := columns df; rows := map (map_except key f (columns df)) (rows df) |}.

(** [df[key].astype(str).str.strip()] on the key cell. *)
Definition strip_cell (c : cell) : cell := Str (Text.strip (astype_str c)).

(** [Series.str.contains(pat, case=False, na=False)] for a pattern that is
    an alternation of literals: some literal occurs in the text, whatever
    the case; a cell that is not a text gives [False]. *)
Definition str_contains_any (tokens : list string) (c : cell) : bool :=
  match c with
  | Str s => existsb (fun t => Text.contains_ci t s) tokens
  | _ => false
  end.

(** The text of a key cell. *)
Definition key_text (j : nat) (r : row) : string := astype_str (get r j).

(** [drop_duplicates(subset=key)]: of the rows with one key, the first is
    kept.  [seen] holds the keys already met. *)
Fixpoint drop_duplicates_from (seen : list string) (j : nat) (rs : list row) : list row :=
  match rs with
  | [] => []
  | r :: t =>
      if existsb (String.eqb (key_text j r)) seen
      then drop_duplicates_from seen j t
      else r :: drop_duplicates_from (key_text j r :: seen) j t
  end.

Definition drop_duplicates (j : nat) (df : DataFrame) : DataFrame :=
  {| columns := columns df; rows := drop_duplicates_from [] j (rows df) |}.

(** Writes [x] at position [j] of a row, or after its last cell when
    there is no position. *)
Definition set_cell (j : option nat) (x : cell) (r : row) : row :=
  match j with
  | Some j => update_at j (fun _ => x) r
  | None => r ++ [x]
  end.

(** [df[name] = values]: the column [name] is overwritten when the frame
    has it, and added as the last column otherwise.  [f] gives the new
    cell of a row from the row as it was. *)
Definition set_column (name : string) (f : row -> cell) (df : DataFrame) : DataFrame :=
  let j := col_index name (columns df) in
  {| columns := match j with
                | Some _ => columns df
                | None => columns df ++ [name]
                end;
     rows := map (fun r => set_cell j (f r) r) (rows df) |}.

(** Sum of the cells of the columns whose label is not [key]
    ([df[cols].sum(axis=1)] on integer columns). *)
Fixpoint row_total (key : string) (cols : list string) (r : row) : Z :=
  match cols, r with
  | n :: cols', c :: r' =>
      (if String.eqb n key then 0 else match c with Int z => z | _ => 0 end)
      + row_total key cols' r'
  | _, _ => 0
  end.

(** [df.rename(columns={df.columns[0]: name})]: every column carrying the
    first label is relabelled; without a column the lookup of the first
    label raises. *)
Definition rename_first (name : string) (df : DataFrame) : option DataFrame :=
  match columns df with
  | [] => None
  | c0 :: _ =>
      Some {| columns := map (fun c => if String.eqb c c0 then name else c) (columns df);
              rows := rows df |}
  end.

End Cleaning.

Section Pipelines.

Context {lib : Pandas}.

(** *** Header override *)

(** [if len(df.columns) == len(expected_cols): df.columns = expected_cols] *)
Definition override_equal (expected_cols : list string) (df : DataFrame) : DataFrame :=
  if Nat.eqb (List.length (columns df)) (List.length expected_cols)
  then {| columns := expected_cols; rows := rows df |}
  else df.

(** [if len(df.columns) >= len(expected_cols):
       df = df.iloc[:, :len(expected_cols)]; df.columns = expected_cols] *)
Definition override_prefix (expected_cols : list string) (df : DataFrame) : DataFrame :=
  if Nat.leb (List.length expected_cols) (List.length (columns df))
  then take_columns (List.length expected_cols) expected_cols df
  else df.

(** [df = df[df[key].notna()]; df[key] = df[key].astype(str).str.strip()];
    the lookup of [key] raises when no column carries that label. *)
Definition key_rows (key : string) (df : DataFrame) : option (nat * DataFrame) :=
  k <- col_index key (columns df) ;;
  Some (k, map_column k strip_cell (filter_rows (fun r => notna (get r k)) df)).

(** [df[~df[key].str.contains(pattern, case=False, na=False)]] *)
Definition drop_matching (tokens : list string) (k : nat) (df : DataFrame) : DataFrame :=
  filter_rows (fun r => negb (str_contains_any tokens (get r k))) df.

(** [[str(y) for y in range(first, first + n)]] *)
Definition year_labels (first n : nat) : list string :=
  map (fun y => Text.of_Z (Z.of_nat y)) (seq first n).

(** *** Melt *)

Record Melted : Type := mkMelted {
  ids : list cell;
  variable : string;
  value : cell
}.

(** Positions of the given labels; a label the frame lacks raises. *)
Fixpoint positions (names cols : list string) : option (list nat) :=
  match names with
  | [] => Some []
  | n :: t =>
      j <- col_index n cols ;;
      js <- positions t cols ;;
      Some (j :: js)
  end.

(** [df.melt(id_vars, value_vars, var_name, value_name)]: one record per
    value column and row, value columns first.  It raises when
    [value_name] is already a column label. *)
Definition melt (id_vars value_vars : list string) (value_name : string)
    (df : DataFrame) : option (list Melted) :=
  if existsb (String.eqb value_name) (columns df) then None else
  ip <- positions id_vars (columns df) ;;
  vp <- positions value_vars (columns df) ;;
  Some (flat_map
          (fun lj : string * nat =>
             map (fun r => {| ids := map (get r) ip;
                              variable := fst lj;
                              value := get r (snd lj) |}) (rows df))
          (combine value_vars vp)).

(** The default [value_vars] of [melt]: the columns that are not
    identifiers. *)
Definition other_columns (id_vars cols : list string) : list string :=
  filter (fun c => negb (existsb (String.eqb c) id_vars)) cols.

(* ------------------------------------------------------------------ *)
(** *** Age *)

Record LongRecord : Type := mkLong {
  entity : cell;
  time : Z;
  amount : cell
}.

(** Lines 87-89: the melt on the first column, the rows whose [Year]
    matches four digits, and [Year] read as an integer.  The lookup of
    the first column raises on a frame without columns, and [.str] raises
    when the melted frame has two [Year] columns. *)
Definition reshape_age (df : DataFrame) : option (list LongRecord) :=
  id <- hd_error (columns df) ;;
  m <- melt [id] (other_columns [id] (columns df)) "Emigrants" df ;;
  if String.eqb id "Year" then None else
  Some (map (fun x => {| entity := hd NaN (ids x);
                         time := Text.year_value (variable x);
                         amount := value x |})
            (filter (fun x => Text.match_year (variable x)) m)).


(* ------------------------------------------------------------------ *)
(** *** All countries *)

Definition country_denylist : list string := ["TOTAL"; "OTHERS"; "UNKNOWN"].

(** Lines 151-160: pruning up to the removal of the denylisted rows. *)
Definition country_pruned (df : DataFrame) : option (nat * DataFrame) :=
  let df := dropna_cols (dropna_rows df) in
  df <- (if existsb (String.eqb "COUNTRY") (columns df)
         then Some df else rename_first "COUNTRY" df) ;;
  kd <- key_rows "COUNTRY" df ;;
  Some (fst kd, drop_matching country_denylist (fst kd) (snd kd)).

(** Lines 162-168: coercion, deduplication, row totals. *)
Definition country_finish (kd : nat * DataFrame) : DataFrame :=
  let df := coerce_except "COUNTRY" coerce_int (snd kd) in
  let df := drop_duplicates (fst kd) df in
  set_column "Total_Emigrants"
    (fun r => Int (row_total "COUNTRY" (columns df) r)) df.

Definition display_country_data (df : DataFrame) : option DataFrame :=
  kd <- country_pruned df ;;
  Some (country_finish kd).

(* ------------------------------------------------------------------ *)
(** *** Major countries *)

Definition major_expected_cols : list string :=
  ["YEAR"; "USA"; "CANADA"; "JAPAN"; "AUSTRALIA"; "ITALY";
   "NEW_ZEALAND"; "UNITED_KINGDOM"; "GERMANY"; "SOUTH_KOREA";
   "SPAIN"; "OTHERS"; "TOTAL"; "_Inc_Dec"].

Definition major_pruned (df : DataFrame) : option (nat * DataFrame) :=
  let df := override_equal major_expected_cols (dropna_cols df) in
  key_rows "YEAR" (dropna_rows df).

Definition display_major_country_data (df : DataFrame) : option DataFrame :=
  kd <- major_pruned df ;;
  Some (coerce_except "YEAR" coerce_int (snd kd)).




(* ------------------------------------------------------------------ *)
(** *** Occupation *)

Definition occu_expected_cols : list string :=
  "MAJOR_OCCUPATION_GROUP" :: year_labels 1981 40 ++ ["TOTAL"].






Definition occu_pruned (df : DataFrame) : option (nat * DataFrame) :=
  key_rows "MAJOR_OCCUPATION_GROUP"
    (override_prefix occu_expected_cols (dropna_rows (dropna_cols df))).

(** Lines 346-366: the cleaned occupation table. *)
Definition occu_cleaned (df : DataFrame) : option (nat * DataFrame) :=
  kd <- occu_pruned df ;;
  Some (fst kd, coerce_except "MAJOR_OCCUPATION_GROUP" coerce_int (snd kd)).






(* ------------------------------------------------------------------ *)
(** *** Sex *)

Definition sex_expected_cols : list string :=
  ["YEAR"; "MALE"; "FEMALE"; "TOTAL"; "SEX_RATIO"].

(** Lines 497-503 on one cell:
    [.astype(str).str.extract(r"(\d+)").astype(float) / 100]. *)
Definition sex_ratio_cell (c : cell) : cell :=
  match Text.first_digits (astype_str c) with
  | Some d => Flt (inject_Z (Text.digits_value d) / 100)
  | None => NaN
  end.

(** The ratio stored in the cleaned table for a text of the source
    column: the decomposition followed by the coercion of line 508. *)
Definition sex_ratio (s : string) : Q :=
  cell_value (coerce_num (sex_ratio_cell (Str s))).

Definition sex_pruned (df : DataFrame) : option (nat * DataFrame) :=
  key_rows "YEAR"
    (override_prefix sex_expected_cols (dropna_rows (dropna_cols df))).

(** Lines 496-505. *)
Definition clean_sex_ratio (df : DataFrame) : DataFrame :=
  match col_index "SEX_RATIO" (columns df) with
  | Some j => map_column j sex_ratio_cell df
  | None => set_column "SEX_RATIO" (fun _ => Int 0) df
  end.

Record SexViews : Type := mkSexViews {
  df_full : DataFrame;
  df_viz : DataFrame
}.

Definition display_sex_data (df : DataFrame) : option SexViews :=
  kd <- sex_pruned df ;;
  let df := coerce_except "YEAR" coerce_num (clean_sex_ratio (snd kd)) in
  Some {| df_full := df;
          df_viz := drop_matching ["TOTAL"; "Average"] (fst kd) df |}.

(* ------------------------------------------------------------------ *)
(** *** Civil status *)

Definition civil_expected_cols : list string :=
  ["YEAR"; "Single"; "Married"; "Widower"; "Separated";
   "Divorced"; "Not_Reported"; "TOTAL"].

Definition civil_pruned (df : DataFrame) : option (nat * DataFrame) :=
  key_rows "YEAR"
    (override_prefix civil_expected_cols (dropna_rows (dropna_cols df))).

(** Lines 615-638: the cleaned civil-status table. *)
Definition civil_cleaned (df : DataFrame) : option DataFrame :=
  kd <- civil_pruned df ;;
  Some (coerce_except "YEAR" coerce_int (snd kd)).




(* ------------------------------------------------------------------ *)
(** *** Education *)

Definition educ_expected_cols : list string :=
  "EDUCATIONAL_ATTAINMENT" :: year_labels 1988 33 ++ ["TOTAL"].

(** [df_viz[key].str.len() > 1] on the key cell. *)
Definition longer_than_one (c : cell) : bool :=
  match c with
  | Str s => Nat.ltb 1 (String.length s)
  | _ => false
  end.

Definition educ_pruned (df : DataFrame) : option (nat * DataFrame) :=
  kd <- key_rows "EDUCATIONAL_ATTAINMENT"
          (override_prefix educ_expected_cols (dropna_rows (dropna_cols df))) ;;
  Some (fst kd,
        filter_rows (fun r => longer_than_one (get r (fst kd)))
          (drop_matching ["TOTAL"] (fst kd) (snd kd))).

(** Lines 735-754: the cleaned education table. *)
Definition display_educ_data (df : DataFrame) : option DataFrame :=
  kd <- educ_pruned df ;;
  Some (coerce_except "EDUCATIONAL_ATTAINMENT" coerce_int (snd kd)).

(* ------------------------------------------------------------------ *)
(** *** Place of origin: one sheet *)

(** Lines 839-844: a header cell as a label. *)
Definition header_label (c : cell) : string :=
  Text.strip_dot_zero (Text.strip (astype_str c)).

Definition is_punct (c : ascii) : bool :=
  existsb (Ascii.eqb c) ["*"; "%"; "("; ")"; "."]%char.

Definition space_to_underscore (c : ascii) : ascii :=
  if Ascii.eqb c " "%char then "_"%char else c.

(** Lines 851-855: punctuation removed, spaces replaced, ends trimmed. *)
Definition sanitize_label (l : string) : string :=
  Text.strip (Text.map_chars space_to_underscore (Text.remove_chars is_punct l)).

Fixpoint has_duplicates (l : list string) : bool :=
  match l with
  | [] => false
  | x :: t => existsb (String.eqb x) t || has_duplicates t
  end.

(** Sum of the numeric cells of a row, missing values counting for
    zero: [df.drop(columns=[key]).fillna(0).sum(axis=1)]. *)
Fixpoint row_sum (key : string) (cols : list string) (r : row) : Q :=
  match cols, r with
  | n :: cols', c :: r' =>
      ((if String.eqb n key then 0 else cell_value c) + row_sum key cols' r')%Q
  | _, _ => 0%Q
  end.

(** [.fillna(0).astype(int)] on a cell of a numeric column. *)
Definition fill_int (c : cell) : cell := Int (astype_int (cell_value c)).

(** Lines 837-855: the header row becomes the labels, the rows down to
    it are dropped, the columns labelled [Unnamed...] or blank are
    dropped, the labels are sanitized.  A grid of fewer than three rows
    raises. *)
Definition sheet_header (raw : list row) : option DataFrame :=
  header <- nth_error raw 2 ;;
  let labels := map header_label header in
  let df := {| columns := labels; rows := skipn 3 raw |} in
  let df := select_columns (map (fun l => negb (prefix "Unnamed" l)) (columns df)) df in
  let df := select_columns
              (map (fun l => negb (String.eqb (Text.strip l) "")) (columns df)) df in
  Some {| columns := map sanitize_label (columns df); rows := rows df |}.

(** Lines 857-867: the key column is the first one; rows keyed [nan] go,
    rows keyed [Region...] go except on the sheet [REGION]; every other
    column is read as numbers. *)
Definition sheet_rows (sheet_name first_col : string) (df : DataFrame) : DataFrame :=
  let df := map_column 0 strip_cell df in
  let df := filter_rows (fun r => notna (get r 0)) df in
  let df := filter_rows (fun r => negb (Text.match_word_ci "nan" (key_text 0 r))) df in
  let df := if String.eqb sheet_name "REGION" then df
            else filter_rows
                   (fun r => negb (Text.startswith_ci "Region" (key_text 0 r))) df in
  coerce_except first_col numeric_cell df.

(** Lines 837-869: the sheet with its numeric columns read, the columns
    without any number dropped.  Selecting a label carried by two columns
    yields a frame where the code expects a column, and the next call
    raises. *)
Definition sheet_numeric (sheet_name : string) (raw : list row)
    : option (string * DataFrame) :=
  df <- sheet_header raw ;;
  first_col <- hd_error (columns df) ;;
  if has_duplicates (columns df) then None
  else Some (first_col, dropna_cols (sheet_rows sheet_name first_col df)).

(** The test of line 870 on one row. *)
Definition nonzero_row (first_col : string) (cols : list string) (r : row) : bool :=
  negb (Qeq_bool (row_sum first_col cols r) 0).

(** [clean_sheet], lines 835-878, without its [except] clause.  When no
    row is left, line 869 has dropped every column and line 870 fails to
    find the key column. *)
Definition clean_sheet (sheet_name : string) (raw : list row) : option DataFrame :=
  kd <- sheet_numeric sheet_name raw ;;
  match rows (snd kd) with
  | [] => None
  | _ :: _ =>
      Some (coerce_except (fst kd) fill_int
              (filter_rows (nonzero_row (fst kd) (columns (snd kd))) (snd kd)))
  end.

(* ------------------------------------------------------------------ *)
(** *** Place of origin: the workbook *)

(** What a chart is drawn from. *)
Inductive chart_data : Type :=
| line_chart (records : list Melted)
| bar_chart (df : DataFrame)
| pie_chart (df : DataFrame).

(** What the page shows, in order. *)
Inductive event : Type :=
| error_file
| error_raw (name : string)
| raw_preview (name : string)
| error_clean (name : string)
| warning_no_data (name : string)
| cleaned_preview (name : string) (df : DataFrame)
| chart (name : string) (data : chart_data).

Definition empty_frame : DataFrame := {| columns := []; rows := [] |}.

(** [df.empty] *)
Definition is_empty (df : DataFrame) : bool :=
  match columns df, rows df with
  | _ :: _, _ :: _ => false
  | _, _ => true
  end.

(** [clean_sheet] with its [except] clause (lines 880-882): the error is
    reported and an empty frame returned. *)
Definition clean_sheet_guarded (sheet_name : string) (raw : list row)
    : list event * DataFrame :=
  match clean_sheet sheet_name raw with
  | Some df => ([], df)
  | None => ([error_clean sheet_name], empty_frame)
  end.

(** The pattern of lines 926 and 957 on a key text. *)
Definition noise_label (s : string) : bool :=
  Text.match_word_ci "total" s || Text.match_word_ci "totals" s ||
  Text.match_two_words_ci "not" "reported" s ||
  Text.match_two_words_ci "no" "response" s.

(** The pattern of line 984, which adds [grand total]. *)
Definition noise_label_municipality (s : string) : bool :=
  Text.match_word_ci "total" s || Text.match_two_words_ci "grand" "total" s ||
  Text.match_word_ci "totals" s ||
  Text.match_two_words_ci "not" "reported" s ||
  Text.match_two_words_ci "no" "response" s.

(** [Series.str.match(pattern, na=False)] on a key cell. *)
Definition str_match (p : string -> bool) (c : cell) : bool :=
  match c with
  | Str s => p s
  | _ => false
  end.

(** [df[~df[first_col].str.match(pattern, na=False)]] *)
Definition remove_noise (p : string -> bool) (df : DataFrame) : DataFrame :=
  filter_rows (fun r => negb (str_match p (get r 0))) df.

(** [df["Total"] = df[numeric_cols].sum(axis=1)], the numeric columns
    being all the columns but the first. *)
Definition with_total (df : DataFrame) : DataFrame :=
  set_column "Total"
    (fun r => Int (row_total (hd EmptyString (columns df)) (columns df) r)) df.

(** Lines 920-932: the table of the regional chart.  The melt and the
    reading of [Year] stand outside any [try]: [None] is an exception that
    leaves [display_place_data]. *)
Definition region_chart (df : DataFrame) : option chart_data :=
  first_col <- hd_error (columns df) ;;
  let df := remove_noise noise_label (map_column 0 strip_cell df) in
  m <- melt [first_col] (other_columns [first_col] (columns df)) "Emigrants" df ;;
  if String.eqb first_col "Year" then None else
  Some (line_chart
          (filter (fun x => match parse_number (variable x) with
                            | Some _ => true
                            | None => false
                            end) m)).

(** Lines 919-1001: the chart of a sheet, by its name; the choice of the
    largest totals, made from a slider, is left to the chart. *)
Definition sheet_chart (name : string) (df : DataFrame) : option (list event) :=
  if String.eqb (Text.upper name) "REGION" then
    d <- region_chart df ;; Some [chart name d]
  else if String.eqb (Text.upper name) "PROVINCE" then
    Some [chart name (bar_chart (with_total (remove_noise noise_label df)))]
  else if String.eqb (Text.upper name) "MUNICIPALITY" then
    Some [chart name (pie_chart (with_total (remove_noise noise_label_municipality df)))]
  else Some [].

(** A sheet of the workbook: its name and its grid as read with
    [header=None], or [None] when reading it raises. *)
Definition sheet : Type := (string * option (list row))%type.

(** The body of the loop of lines 887-1001 for one sheet: what it shows,
    and whether an exception left the loop. *)
Definition sheet_events (s : sheet) : list event * bool :=
  let name := fst s in
  match snd s with
  | None => ([error_raw name], false)
  | Some raw =>
      let out := clean_sheet_guarded name raw in
      if is_empty (snd out)
      then (raw_preview name :: fst out ++ [warning_no_data name], false)
      else
        match sheet_chart name (snd out) with
        | Some charts =>
            (raw_preview name :: fst out ++ cleaned_preview name (snd out) :: charts,
             false)
        | None =>
            (raw_preview name :: fst out ++ [cleaned_preview name (snd out)], true)
        end
  end.

(** The loop over the sheets; [log] is what the page shows so far. *)
Fixpoint run_sheets (log : list event) (sheets : list sheet) : list event * bool :=
  match sheets with
  | [] => (log, false)
  | s :: t =>
      let out := sheet_events s in
      if snd out then (log ++ fst out, true)
      else run_sheets (log ++ fst out) t
  end.

(** [display_place_data]: what the page shows and whether an exception
    left the function; [None] is a workbook that cannot be opened.  A
    workbook that opens has at least one sheet. *)
Definition display_place_data (workbook : option (list sheet)) : list event * bool :=
  match workbook with
  | None => ([error_file], false)
  | Some sheets => run_sheets [] sheets
  end.

(* ------------------------------------------------------------------ *)
(** *** The pipelines that prune and coerce *)

Inductive pipeline : Type :=
| Country | Major | Occupation | Sex | Civil | Education.

Definition key_of (p : pipeline) : string :=
  match p with
  | Country => "COUNTRY"
  | Major | Sex | Civil => "YEAR"
  | Occupation => "MAJOR_OCCUPATION_GROUP"
  | Education => "EDUCATIONAL_ATTAINMENT"
  end.

(** The table of a pipeline just before its numeric columns are coerced,
    with the position of its key column. *)
Definition pruned (p : pipeline) (df : DataFrame) : option (nat * DataFrame) :=
  match p with
  | Country => country_pruned df
  | Major => major_pruned df
  | Occupation => occu_pruned df
  | Sex => kd <- sex_pruned df ;; Some (fst kd, clean_sex_ratio (snd kd))
  | Civil => civil_pruned df
  | Education => educ_pruned df
  end.

(** The cleaned table a pipeline shows. *)
Definition cleaned (p : pipeline) (df : DataFrame) : option DataFrame :=
  match p with
  | Country => display_country_data df
  | Major => display_major_country_data df
  | Occupation => kd <- occu_cleaned df ;; Some (snd kd)
  | Sex => v <- display_sex_data df ;; Some (df_full v)
  | Civil => civil_cleaned df
  | Education => display_educ_data df
  end.


(** The coercion a pipeline applies to its numeric cells. *)
Definition coercion_of (p : pipeline) : cell -> cell :=
  match p with
  | Sex => coerce_num
  | _ => coerce_int
  end.

(** The steps of a pipeline from the coercion on. *)
Definition finish (p : pipeline) (kd : nat * DataFrame) : DataFrame :=
  match p with
  | Country => country_finish kd
  | _ => coerce_except (key_of p) (coercion_of p) (snd kd)
  end.


End Pipelines.

(* ================================================================== *)
(** ** Properties of tables *)

Section Properties.

Context {lib : Pandas}.

(** The column at position [k] is labelled [key] and holds a text in
    every row. *)
Definition keyed (key : string) (k : nat) (df : DataFrame) : Prop :=
  col_index key (columns df) = Some k /\
  forall r, In r (rows df) -> exists s, nth_error r k = Some (Str s).








End Properties.

(* ================================================================== *)
(** ** A concrete library instance and sample tables *)

Module Sample.

Definition nonempty (s : string) : bool :=
  match s with EmptyString => false | _ => true end.

Definition unsigned_integer (s : string) : option Z :=
  if nonempty s && Text.all_chars Text.isdigit s
  then Some (Text.digits_value s) else None.

(** Reads a plain integer numeral, white space around it allowed. *)
Definition parse_integer (s : string) : option Q :=
  match Text.strip s with
  | String "-" d => option_map (fun z => inject_Z (- z)) (unsigned_integer d)
  | t => option_map inject_Z (unsigned_integer t)
  end.

(** Decimal digits of the fraction [n / d], at most [fuel] of them. *)
Fixpoint fraction_digits (fuel : nat) (n d : Z) : string :=
  match fuel with
  | O => EmptyString
  | S fuel' =>
      if Z.eqb n 0 then EmptyString
      else (Text.of_Z (Z.quot (10 * n) d) ++ fraction_digits fuel' (Z.rem (10 * n) d) d)%string
  end.

(** Prints a float with a short decimal expansion the way Python does:
    [1988.0], [0.71]. *)
Definition print_float (q : Q) : string :=
  let n := Z.abs (Qnum q) in
  let d := Z.pos (Qden q) in
  let frac := fraction_digits 17 (Z.rem n d) d in
  ((if Z.ltb (Qnum q) 0 then "-" else "") ++ Text.of_Z (Z.quot n d) ++ "." ++
   (if nonempty frac then frac else "0"))%string.

Definition lib : Pandas :=
  {| parse_number := parse_integer; float_str := print_float |}.


(** An all-countries table as loaded: a blank row, a blank column, a
    total row, an average row, a repeated country, a key of blanks and
    two cells that are not numbers.  The column [1981] has a blank cell,
    so pandas holds it as floats. *)
Definition countries : DataFrame :=
  {| columns := ["Unnamed: 0"; "1981"; "1982"; "Unnamed: 3"];
     rows := [[Str "USA"; Flt 5; Str "7"; NaN];
              [NaN; NaN; NaN; NaN];
              [Str " GRAND TOTAL "; Flt 5; Int 7; NaN];
              [Str "AVERAGE"; Flt 5; Str "n/a"; NaN];
              [Str "USA"; Flt 50; Int 70; NaN];
              [Str "  "; Flt 1; NaN; NaN]] |}.

Definition countries_cleaned : DataFrame :=
  {| columns := ["COUNTRY"; "1981"; "1982"; "Total_Emigrants"];
     rows := [[Str "USA"; Int 5; Int 7; Int 12];
              [Str "AVERAGE"; Int 5; Int 0; Int 5];
              [Str ""; Int 1; Int 0; Int 1]] |}.

(** A sheet of the place-of-origin workbook as read without header: two
    title rows, the header row, then the data.  The last column holds
    remarks only. *)
Definition province_sheet : list row :=
  [[Str "Emigrants by province"; NaN; NaN; NaN];
   [NaN; NaN; NaN; NaN];
   [Str "PROVINCE"; Flt 1988; Int 1989; Str "Remarks"];
   [Str "Abra"; Flt 3; Str "4"; Str "checked"];
   [Str "Region I"; Flt 9; Int 9; NaN];
   [NaN; Flt 1; Int 1; NaN];
   [Str "Apayao"; Flt 0; NaN; Str "none"];
   [Str "Benguet"; Flt (2 # 5); NaN; NaN];
   [Str "GRAND TOTAL"; Flt 12; Int 13; NaN]].

(** A civil-status table as loaded, with the year 1988 on two rows. *)
Definition civil_repeated : DataFrame :=
  {| columns := ["Year"; "Single"; "Married"; "Widower"; "Separated";
                 "Divorced"; "Not Reported"; "Total"];
     rows := [[Int 1988; Int 10; Int 20; Int 1; Int 2; Int 3; Int 4; Int 40];
              [Int 1988; Int 11; Int 21; Int 1; Int 2; Int 3; Int 4; Int 42];
              [Int 1989; Int 12; Int 22; Int 1; Int 2; Int 3; Int 4; Int 44]] |}.




(** A sheet whose header row has two blank cells: both columns get the
    label [nan]. *)
Definition broken_sheet : list row :=
  [[Str "Emigrants by province"; NaN; NaN];
   [NaN; NaN; NaN];
   [Str "PROVINCE"; NaN; NaN];
   [Str "Abra"; Flt 3; Flt 4]].

(** The workbook of the three geographic levels, the middle sheet broken. *)
Definition workbook : list sheet :=
  [("REGION", Some province_sheet);
   ("PROVINCE", Some broken_sheet);
   ("MUNICIPALITY", Some province_sheet)].

End Sample.

(* ================================================================== *)
(** ** The canonical headers of the pipelines *)

(** The canonical names a pipeline gives to its columns; the all-countries
    pipeline has none. *)
Definition expected_of (p : pipeline) : list string :=
  match p with
  | Country => []
  | Major => major_expected_cols
  | Occupation => occu_expected_cols
  | Sex => sex_expected_cols
  | Civil => civil_expected_cols
  | Education => educ_expected_cols
  end.


(** The cell at position [k] of every row is a text that satisfies [P]. *)
Definition key_texts (P : string -> Prop) (k : nat) (df : DataFrame) : Prop :=
  forall r, In r (rows df) -> exists s, nth_error r k = Some (Str s) /\ P s.

(** What the cleaning of a sheet of the place-of-origin workbook leaves as
    a key: a trimmed text that is not [nan] and, except on the sheet
    [REGION], does not start with [Region], whatever the case. *)
Definition sheet_key (sheet_name s : string) : Prop :=
  Text.strip s = s /\
  Text.match_word_ci "nan" s = false /\
  (sheet_name <> "REGION" -> Text.startswith_ci "Region" s = false).



(* ================================================================== *)
(** ** Education: the heat map *)






(* ================================================================== *)
(** ** More sample tables *)

Module Tables.

(** A table as loaded from a sheet whose cells below the header are all
    blank. *)
Definition blank : DataFrame :=
  {| columns := ["Unnamed: 0"; "Unnamed: 1"];
     rows := [[NaN; NaN]; [NaN; NaN]] |}.

(** An education table whose header already carries the name of the key
    column: a key with blanks around it, a key of one character, a row of
    totals. *)
Definition education : DataFrame :=
  {| columns := ["EDUCATIONAL_ATTAINMENT"; "1988"; "1989"];
     rows := [[Str " College Graduate "; Flt 5; Flt 6];
              [Str "-"; NaN; Flt 1];
              [Str "Total"; Flt 5; Flt 7]] |}.


(** A sheet whose only data row holds zeros. *)
Definition zero_sheet : list row :=
  [[Str "Emigrants by municipality"; NaN; NaN];
   [NaN; NaN; NaN];
   [Str "MUNICIPALITY"; Flt 1988; Flt 1989];
   [Str "Adams"; Flt 0; Flt 0]].

(** A sheet of regions whose header has a column named like the value
    column of the chart. *)
Definition region_sheet : list row :=
  [[Str "Emigrants by region"; NaN; NaN];
   [NaN; NaN; NaN];
   [Str "REGION"; Flt 1988; Str "Emigrants"];
   [Str "Region I"; Flt 3; Flt 4];
   [Str "NCR"; Flt 5; Flt 6]].

Definition region_workbook : list sheet :=
  [("PROVINCE", Some Sample.province_sheet);
   ("REGION", Some region_sheet);
   ("MUNICIPALITY", Some Sample.province_sheet)].


End Tables.

(* ================================================================== *)
(** ** Facts about texts *)








(* ================================================================== *)
(** ** Facts about rows and frames *)

Section Facts.

Context {lib : Pandas}.

Lemma bind_some {A B : Type} (m : option A) (k : A -> option B) (b : B) :
  bind m k = Some b -> exists a, m = Some a /\ k a = Some b.
Proof.
  destruct m as [a |]; simpl; intros H; [exists a; split; [reflexivity | exact H] | discriminate].
Qed.

Lemma col_index_nth (name : string) (cols : list string) (j : nat) :
  col_index name cols = Some j -> nth_error cols j = Some name.
Proof.
  revert j. induction cols as [| c t IH]; simpl; intros j H; [discriminate |].
  destruct (String.eqb c name) eqn:E.
  - apply String.eqb_eq in E. inversion H; subst. reflexivity.
  - destruct (col_index name t) as [j' |]; simpl in H; [| discriminate].
    inversion H; subst. simpl. apply IH. reflexivity.
Qed.

Lemma col_index_app (name : string) (cols more : list string) (j : nat) :
  col_index name cols = Some j -> col_index name (cols ++ more) = Some j.
Proof.
  revert j. induction cols as [| c t IH]; simpl; intros j H; [discriminate |].
  destruct (String.eqb c name); [exact H |].
  destruct (col_index name t) as [j' |]; simpl in H; [| discriminate].
  rewrite (IH j' eq_refl). exact H.
Qed.

Lemma nth_error_get (r : row) (j : nat) (c : cell) :
  nth_error r j = Some c -> get r j = c.
Proof.
  unfold get. revert j. induction r as [| x t IH]; intros [| j]; simpl; intros H;
    try discriminate.
  - inversion H; reflexivity.
  - apply IH; assumption.
Qed.

Lemma notna_get (r : row) (j : nat) :
  notna (get r j) = true -> nth_error r j = Some (get r j).
Proof.
  unfold get. revert j. induction r as [| x t IH]; intros [| j]; simpl; intros H;
    try discriminate; [reflexivity |].
  apply IH; assumption.
Qed.

Lemma length_update_at (j : nat) (f : cell -> cell) (r : row) :
  List.length (update_at j f r) = List.length r.
Proof.
  revert j. induction r as [| x t IH]; intros [| j]; simpl; try reflexivity.
  f_equal. apply IH.
Qed.

Lemma nth_error_update_at_same (j : nat) (f : cell -> cell) (r : row) (c : cell) :
  nth_error r j = Some c -> nth_error (update_at j f r) j = Some (f c).
Proof.
  revert j. induction r as [| x t IH]; intros [| j]; simpl; intros H;
    try discriminate.
  - inversion H; reflexivity.
  - apply IH; assumption.
Qed.

Lemma nth_error_update_at_other (j i : nat) (f : cell -> cell) (r : row) :
  i <> j -> nth_error (update_at j f r) i = nth_error r i.
Proof.
  revert j i. induction r as [| x t IH]; intros [| j] [| i]; simpl; intros H;
    try reflexivity; try congruence.
  apply IH. congruence.
Qed.

Lemma length_map_except (key : string) (f : cell -> cell) (cols : list string) (r : row) :
  List.length (map_except key f cols r) = List.length r.
Proof.
  revert r. induction cols as [| n t IH]; intros [| c r]; simpl; try reflexivity.
  f_equal. apply IH.
Qed.

Lemma nth_error_map_except (key : string) (f : cell -> cell)
    (cols : list string) (r : row) (j : nat) (n : string) (c : cell) :
  nth_error cols j = Some n ->
  nth_error r j = Some c ->
  nth_error (map_except key f cols r) j = Some (if String.eqb n key then c else f c).
Proof.
  revert r j. induction cols as [| m t IH]; intros [| x r] [| j]; simpl;
    intros Hn Hc; try discriminate.
  - inversion Hn; inversion Hc; subst. reflexivity.
  - apply IH; assumption.
Qed.

(** The coercion of the other columns leaves the key cell as it is. *)
Lemma get_map_except_key (key : string) (f : cell -> cell)
    (cols : list string) (r : row) (k : nat) :
  col_index key cols = Some k ->
  get (map_except key f cols r) k = get r k.
Proof.
  intros Hk. apply col_index_nth in Hk.
  destruct (nth_error r k) as [c |] eqn:E.
  - rewrite (nth_error_get _ _ _ E).
    apply nth_error_get.
    rewrite (nth_error_map_except key f cols r k key c Hk E).
    rewrite String.eqb_refl. reflexivity.
  - unfold get.
    rewrite !nth_overflow; [reflexivity | |].
    + apply nth_error_None. exact E.
    + rewrite length_map_except. apply nth_error_None. exact E.
Qed.

Lemma nth_error_app_left {A : Type} (l more : list A) (j : nat) (x : A) :
  nth_error l j = Some x -> nth_error (l ++ more) j = Some x.
Proof.
  intros H. rewrite nth_error_app1; [exact H |].
  apply nth_error_Some. congruence.
Qed.

(** *** The stage that keeps the rows with a key *)

Lemma key_rows_spec (key : string) (df out : DataFrame) (k : nat) :
  key_rows key df = Some (k, out) ->
  col_index key (columns df) = Some k /\
  columns out = columns df /\
  rows out =
    map (update_at k strip_cell) (filter (fun r => notna (get r k)) (rows df)).
Proof.
  unfold key_rows. intros H.
  apply bind_some in H as (k' & Hk & H). inversion H; subst.
  repeat split. exact Hk.
Qed.

Lemma key_rows_text (key : string) (df out : DataFrame) (k : nat) (r : row) :
  key_rows key df = Some (k, out) ->
  In r (rows out) ->
  exists r0, In r0 (rows df) /\ r = update_at k strip_cell r0 /\
             nth_error r k = Some (Str (Text.strip (astype_str (get r0 k)))).
Proof.
  intros H Hin. apply key_rows_spec in H as (_ & _ & Hr).
  rewrite Hr in Hin. apply in_map_iff in Hin as (r0 & <- & Hin).
  apply filter_In in Hin as [Hin Hna].
  exists r0. repeat split; [assumption |].
  apply (nth_error_update_at_same k strip_cell r0 (get r0 k)).
  apply notna_get. assumption.
Qed.

(** *** Deduplication *)

Lemma existsb_eqb_In (x : string) (l : list string) :
  existsb (String.eqb x) l = true <-> In x l.
Proof.
  rewrite existsb_exists. split.
  - intros (y & Hin & E). apply String.eqb_eq in E. subst. assumption.
  - intros Hin. exists x. split; [assumption | apply String.eqb_refl].
Qed.

Lemma existsb_eqb_not_In (x : string) (l : list string) :
  existsb (String.eqb x) l = false <-> ~ In x l.
Proof.
  rewrite <- existsb_eqb_In. destruct (existsb (String.eqb x) l); split; congruence.
Qed.

(** A row survives deduplication exactly when it is the first row with
    its key and the key was not met before. *)
Lemma drop_duplicates_from_first (seen : list string) (j : nat) (rs : list row) (r : row) :
  In r (drop_duplicates_from seen j rs) ->
  ~ In (key_text j r) seen /\
  exists before after,
    rs = before ++ r :: after /\
    forall b, In b before -> key_text j b <> key_text j r.
Proof.
  revert seen. induction rs as [| x t IH]; simpl; intros seen Hin; [contradiction |].
  destruct (existsb (String.eqb (key_text j x)) seen) eqn:E.
  - apply IH in Hin as (Hs & before & after & -> & Hb).
    split; [assumption |].
    exists (x :: before), after. split; [reflexivity |].
    intros b [<- | Hin]; [| apply Hb; assumption].
    intros Heq. apply existsb_eqb_In in E. rewrite Heq in E. contradiction.
  - apply existsb_eqb_not_In in E.
    destruct Hin as [<- | Hin].
    + split; [assumption |]. exists [], t. split; [reflexivity |]. intros b [].
    + apply IH in Hin as (Hs & before & after & -> & Hb).
      split; [intros Hin'; apply Hs; right; assumption |].
      exists (x :: before), after. split; [reflexivity |].
      intros b [<- | Hin']; [| apply Hb; assumption].
      intros Heq. apply Hs. left. assumption.
Qed.

Lemma drop_duplicates_from_NoDup (seen : list string) (j : nat) (rs : list row) :
  NoDup (map (key_text j) (drop_duplicates_from seen j rs)).
Proof.
  revert seen. induction rs as [| x t IH]; simpl; intros seen; [constructor |].
  destruct (existsb (String.eqb (key_text j x)) seen); [apply IH |].
  simpl. constructor; [| apply IH].
  intros Hin. apply in_map_iff in Hin as (y & Heq & Hin).
  apply drop_duplicates_from_first in Hin as [Hs _].
  apply Hs. left. symmetry. assumption.
Qed.

(** Every key that was not met before keeps one row. *)
Lemma drop_duplicates_from_keeps (seen : list string) (j : nat) (rs : list row) (r : row) :
  In r rs -> ~ In (key_text j r) seen ->
  exists r', In r' (drop_duplicates_from seen j rs) /\ key_text j r' = key_text j r.
Proof.
  revert seen. induction rs as [| x t IH]; simpl; intros seen Hin Hs; [contradiction |].
  destruct (existsb (String.eqb (key_text j x)) seen) eqn:E.
  - destruct Hin as [-> | Hin].
    + apply existsb_eqb_In in E. contradiction.
    + apply IH; assumption.
  - destruct Hin as [-> | Hin].
    + exists r. split; [left; reflexivity | reflexivity].
    + destruct (String.eqb (key_text j x) (key_text j r)) eqn:Ek.
      * apply String.eqb_eq in Ek. exists x. split; [left; reflexivity | assumption].
      * destruct (IH (key_text j x :: seen) Hin) as (r' & Hin' & Hk).
        -- intros [Heq | Hin']; [| contradiction].
           rewrite Heq, String.eqb_refl in Ek. discriminate.
        -- exists r'. split; [right; assumption | assumption].
Qed.

(** *** Rectangular frames stay rectangular *)

Lemma select_length {A B : Type} (mask : list bool) (l : list A) (l' : list B) :
  List.length l = List.length l' ->
  List.length (select mask l) = List.length (select mask l').
Proof.
  revert l l'. induction mask as [| b m IH]; intros [| x l] [| y l'] H;
    simpl in *; try reflexivity; try discriminate.
  injection H as H. destruct b; simpl; [f_equal |]; apply IH; assumption.
Qed.

Lemma rectangular_filter_rows (p : row -> bool) (df : DataFrame) :
  rectangular df -> rectangular (filter_rows p df).
Proof.
  unfold rectangular, filter_rows. simpl. rewrite !Forall_forall.
  intros H r Hin. apply filter_In in Hin as [Hin _]. apply H. assumption.
Qed.

Lemma rectangular_select_columns (mask : list bool) (df : DataFrame) :
  rectangular df -> rectangular (select_columns mask df).
Proof.
  unfold rectangular, select_columns. simpl. rewrite !Forall_forall.
  intros H r Hin. apply in_map_iff in Hin as (r0 & <- & Hin).
  apply select_length. apply H. assumption.
Qed.


Lemma rectangular_dropna_cols (df : DataFrame) :
  rectangular df -> rectangular (dropna_cols df).
Proof. apply rectangular_select_columns. Qed.

Lemma rectangular_map_column (j : nat) (f : cell -> cell) (df : DataFrame) :
  rectangular df -> rectangular (map_column j f df).
Proof.
  unfold rectangular, map_column. simpl. rewrite !Forall_forall.
  intros H r Hin. apply in_map_iff in Hin as (r0 & <- & Hin).
  rewrite length_update_at. apply H. assumption.
Qed.

Lemma rectangular_coerce_except (key : string) (f : cell -> cell) (df : DataFrame) :
  rectangular df -> rectangular (coerce_except key f df).
Proof.
  unfold rectangular, coerce_except. simpl. rewrite !Forall_forall.
  intros H r Hin. apply in_map_iff in Hin as (r0 & <- & Hin).
  rewrite length_map_except. apply H. assumption.
Qed.







End Facts.

(* ================================================================== *)
(** ** Composite sex-ratio field *)

Section SexRatio.

Context {lib : Pandas}.

Lemma first_digits_none (s : string) :
  Text.all_chars Text.nondigit s = true -> Text.first_digits s = None.
Proof.
  induction s as [| c t IH]; cbn [Text.all_chars Text.first_digits]; [reflexivity |].
  intros H. apply andb_true_iff in H as [Hc Ht].
  unfold Text.nondigit in Hc. apply negb_true_iff in Hc. rewrite Hc.
  apply IH. assumption.
Qed.

Lemma sex_ratio_of_digits (s d : string) :
  Text.first_digits s = Some d ->
  sex_ratio s = (inject_Z (Text.digits_value d) / 100)%Q.
Proof.
  intros H. unfold sex_ratio, sex_ratio_cell. cbn [astype_str]. rewrite H.
  reflexivity.
Qed.

(** C3 (amended).  The decomposition of the sex-ratio field maps the text
    [71M/100F] to the ratio 71/100; it maps a text [s] without any digit
    to the ratio 0; and when [s] has a digit, the ratio is the first run
    of digits of [s], wherever it starts, divided by 100. *)
Theorem sex_ratio_decomposition (s : string) :
  (sex_ratio "71M/100F" == 71 # 100)%Q /\
  (Text.all_chars Text.nondigit s = true -> sex_ratio s == 0)%Q /\
  (forall d, Text.first_digits s = Some d ->
             sex_ratio s == inject_Z (Text.digits_value d) / 100)%Q.
Proof.
  split; [| split].
  - rewrite (sex_ratio_of_digits "71M/100F" "71" eq_refl). reflexivity.
  - intros H. unfold sex_ratio, sex_ratio_cell. cbn [astype_str].
    rewrite (first_digits_none s H). reflexivity.
  - intros d H. rewrite (sex_ratio_of_digits s d H). reflexivity.
Qed.

End SexRatio.

(** A text without digits. *)
Lemma sex_ratio_decomposition_witness :
  (@sex_ratio Sample.lib "n/a" == 0)%Q.
Proof.
  apply (proj1 (proj2 (@sex_ratio_decomposition Sample.lib "n/a"))).
  reflexivity.
Defined.

(** C3 as stated fails: the text [M/100F] has no leading digit, and its
    ratio is 100/100, not 0. *)
Lemma sex_ratio_counterexample :
  Text.take_digits "M/100F" = EmptyString /\
  (@sex_ratio Sample.lib "M/100F" == 1)%Q /\
  ~ (@sex_ratio Sample.lib "M/100F" == 0)%Q.
Proof.
  split; [reflexivity | split; [reflexivity |]].
  intros H. vm_compute in H. discriminate H.
Qed.

(* ================================================================== *)
(** ** Canonical column names *)

Section HeaderOverride.

Context {lib : Pandas}.




End HeaderOverride.



(* ================================================================== *)
(** ** The pruned and the cleaned table of a pipeline *)

Section PrunedTables.

Context {lib : Pandas}.

Lemma cleaned_finish (p : pipeline) (df : DataFrame) :
  cleaned p df = option_map (finish p) (pruned p df).
Proof.
  destruct p; simpl.
  - unfold display_country_data. destruct (country_pruned df); reflexivity.
  - unfold display_major_country_data. destruct (major_pruned df); reflexivity.
  - unfold occu_cleaned. destruct (occu_pruned df); reflexivity.
  - unfold display_sex_data. destruct (sex_pruned df); reflexivity.
  - unfold civil_cleaned. destruct (civil_pruned df); reflexivity.
  - unfold display_educ_data. destruct (educ_pruned df); reflexivity.
Qed.

Lemma cleaned_some (p : pipeline) (df out : DataFrame) :
  cleaned p df = Some out ->
  exists k pre, pruned p df = Some (k, pre) /\ out = finish p (k, pre).
Proof.
  rewrite cleaned_finish. destruct (pruned p df) as [[k pre] |]; simpl; intros H;
    [| discriminate].
  inversion H. exists k, pre. split; reflexivity.
Qed.

Lemma key_rows_keyed (key : string) (df out : DataFrame) (k : nat) :
  key_rows key df = Some (k, out) -> keyed key k out.
Proof.
  intros H. split.
  - apply key_rows_spec in H as (Hk & Hc & _). rewrite Hc. exact Hk.
  - intros r Hin.
    destruct (key_rows_text key df out k r H Hin) as (r0 & _ & _ & Hn).
    eexists. exact Hn.
Qed.

Lemma keyed_filter_rows (key : string) (k : nat) (p : row -> bool) (df : DataFrame) :
  keyed key k df -> keyed key k (filter_rows p df).
Proof.
  intros [Hk Hr]. split; [exact Hk |].
  intros r Hin. apply filter_In in Hin as [Hin _]. apply Hr. assumption.
Qed.

Lemma keyed_coerce_except (key : string) (k : nat) (f : cell -> cell) (df : DataFrame) :
  keyed key k df -> keyed key k (coerce_except key f df).
Proof.
  intros [Hk Hr]. split; [exact Hk |].
  intros r Hin. simpl in Hin. apply in_map_iff in Hin as (r0 & <- & Hin).
  destruct (Hr r0 Hin) as [s Hs]. exists s.
  rewrite (nth_error_map_except key f (columns df) r0 k key (Str s)
             (col_index_nth _ _ _ Hk) Hs).
  rewrite String.eqb_refl. reflexivity.
Qed.

Lemma keyed_drop_duplicates (key : string) (k j : nat) (df : DataFrame) :
  keyed key k df -> keyed key k (drop_duplicates j df).
Proof.
  intros [Hk Hr]. split; [exact Hk |].
  intros r Hin. simpl in Hin.
  apply drop_duplicates_from_first in Hin as (_ & before & after & E & _).
  apply Hr. rewrite E. apply in_or_app. right. left. reflexivity.
Qed.

Lemma keyed_map_column (key : string) (k j : nat) (f : cell -> cell) (df : DataFrame) :
  j <> k -> keyed key k df -> keyed key k (map_column j f df).
Proof.
  intros Hne [Hk Hr]. split; [exact Hk |].
  intros r Hin. simpl in Hin. apply in_map_iff in Hin as (r0 & <- & Hin).
  destruct (Hr r0 Hin) as [s Hs]. exists s.
  rewrite nth_error_update_at_other by congruence. exact Hs.
Qed.

Lemma col_index_distinct (a b : string) (cols : list string) (i j : nat) :
  a <> b -> col_index a cols = Some i -> col_index b cols = Some j -> i <> j.
Proof.
  intros Hne Ha Hb E. subst j.
  apply col_index_nth in Ha. apply col_index_nth in Hb. congruence.
Qed.

Lemma keyed_set_column (key name : string) (k : nat) (f : row -> cell) (df : DataFrame) :
  name <> key -> keyed key k df -> keyed key k (set_column name f df).
Proof.
  intros Hne [Hk Hr]. unfold set_column.
  destruct (col_index name (columns df)) as [j |] eqn:Ej; split; simpl.
  - exact Hk.
  - intros r Hin. apply in_map_iff in Hin as (r0 & <- & Hin).
    destruct (Hr r0 Hin) as [s Hs]. exists s.
    rewrite nth_error_update_at_other; [exact Hs |].
    intros E. apply (col_index_distinct name key (columns df) j k Hne Ej Hk).
    symmetry. exact E.
  - apply col_index_app. exact Hk.
  - intros r Hin. apply in_map_iff in Hin as (r0 & <- & Hin).
    destruct (Hr r0 Hin) as [s Hs]. exists s.
    apply nth_error_app_left. exact Hs.
Qed.

Lemma keyed_clean_sex_ratio (k : nat) (df : DataFrame) :
  keyed "YEAR" k df -> keyed "YEAR" k (clean_sex_ratio df).
Proof.
  intros H. unfold clean_sex_ratio.
  destruct (col_index "SEX_RATIO" (columns df)) as [j |] eqn:Ej.
  - apply keyed_map_column; [| exact H].
    apply (col_index_distinct "SEX_RATIO" "YEAR" (columns df)); try assumption.
    + discriminate.
    + apply H.
  - apply keyed_set_column; [discriminate | exact H].
Qed.

(** The key column of a pruned table holds a text in every row. *)
Lemma pruned_keyed (p : pipeline) (df pre : DataFrame) (k : nat) :
  pruned p df = Some (k, pre) -> keyed (key_of p) k pre.
Proof.
  destruct p; simpl; intros H.
  - unfold country_pruned in H.
    apply bind_some in H as (df2 & _ & H).
    apply bind_some in H as ([k' pre'] & Hk & H).
    inversion H; subst. apply keyed_filter_rows.
    apply (key_rows_keyed _ _ _ _ Hk).
  - apply (key_rows_keyed _ _ _ _ H).
  - apply (key_rows_keyed _ _ _ _ H).
  - apply bind_some in H as ([k' pre'] & Hk & H). inversion H; subst.
    apply keyed_clean_sex_ratio. apply (key_rows_keyed _ _ _ _ Hk).
  - apply (key_rows_keyed _ _ _ _ H).
  - unfold educ_pruned in H.
    apply bind_some in H as ([k' pre'] & Hk & H). inversion H; subst.
    apply keyed_filter_rows, keyed_filter_rows.
    apply (key_rows_keyed _ _ _ _ Hk).
Qed.



End PrunedTables.

(* ================================================================== *)
(** ** Coercion of numeric cells *)

Section Coercion.

Context {lib : Pandas}.






End Coercion.



(* ================================================================== *)
(** ** Deduplication in the all-countries pipeline *)

Section Deduplication.

Context {lib : Pandas}.

Lemma nth_error_set_cell (j : option nat) (x : cell) (r : row) (k : nat) (c : cell) :
  nth_error r k = Some c ->
  (forall j0, j = Some j0 -> j0 <> k) ->
  nth_error (set_cell j x r) k = Some c.
Proof.
  intros Hc Hj. destruct j as [j0 |]; simpl.
  - rewrite nth_error_update_at_other; [exact Hc |].
    intros E. apply (Hj j0 eq_refl). symmetry. exact E.
  - apply nth_error_app_left. exact Hc.
Qed.

(** The coerced row and the row with its total, as functions of one row
    of the pruned table. *)
Lemma country_finish_rows (k : nat) (pre : DataFrame) :
  rows (country_finish (k, pre)) =
  map (fun r1 => set_cell (col_index "Total_Emigrants" (columns pre))
                   (Int (row_total "COUNTRY" (columns pre) r1)) r1)
      (drop_duplicates_from [] k
         (map (map_except "COUNTRY" coerce_int (columns pre)) (rows pre))).
Proof. reflexivity. Qed.

Lemma country_finish_key_column (k : nat) (pre : DataFrame) :
  col_index "COUNTRY" (columns pre) = Some k ->
  col_index "COUNTRY" (columns (country_finish (k, pre))) = Some k.
Proof.
  intros Hk. unfold country_finish, set_column. cbn [fst snd columns drop_duplicates coerce_except].
  destruct (col_index "Total_Emigrants" (columns pre)); [exact Hk |].
  apply col_index_app. exact Hk.
Qed.

Lemma key_text_coerced (k : nat) (pre : DataFrame) (r : row) :
  col_index "COUNTRY" (columns pre) = Some k ->
  key_text k (map_except "COUNTRY" coerce_int (columns pre) r) = key_text k r.
Proof.
  intros Hk. unfold key_text. rewrite (get_map_except_key _ _ _ _ _ Hk). reflexivity.
Qed.

Lemma key_text_with_total (k : nat) (pre : DataFrame) (x : cell) (r : row) (c : cell) :
  col_index "COUNTRY" (columns pre) = Some k ->
  nth_error r k = Some c ->
  key_text k (set_cell (col_index "Total_Emigrants" (columns pre)) x r) = key_text k r.
Proof.
  intros Hk Hc. unfold key_text.
  rewrite (nth_error_get _ _ _ Hc).
  rewrite (nth_error_get _ k c); [reflexivity |].
  apply nth_error_set_cell; [exact Hc |].
  intros j0 Hj.
  apply (col_index_distinct "Total_Emigrants" "COUNTRY" (columns pre)); try assumption.
  discriminate.
Qed.

(** C8 (amended).  In the all-countries pipeline, among the rows of the
    pruned table that share a key the cleaned table retains exactly one:
    its keys are pairwise distinct, every key of the pruned table is still
    there, and the retained row is built from the first row carrying the
    key and from that row only (its cells coerced, its own total added);
    nothing of a later duplicate is merged or summed into it. *)
Theorem country_first_occurrence (df out : DataFrame) :
  display_country_data df = Some out ->
  exists k pre,
    country_pruned df = Some (k, pre) /\
    col_index "COUNTRY" (columns out) = Some k /\
    NoDup (map (key_text k) (rows out)) /\
    (forall r, In r (rows pre) ->
       exists r', In r' (rows out) /\ key_text k r' = key_text k r) /\
    (forall r', In r' (rows out) ->
       exists before r after,
         rows pre = before ++ r :: after /\
         (forall b, In b before -> key_text k b <> key_text k r) /\
         key_text k r' = key_text k r /\
         r' = let r1 := map_except "COUNTRY" coerce_int (columns pre) r in
              set_cell (col_index "Total_Emigrants" (columns pre))
                (Int (row_total "COUNTRY" (columns pre) r1)) r1).
Proof.
  intros H.
  apply (cleaned_some Country) in H as (k & pre & Hp & ->).
  pose proof (pruned_keyed Country df pre k Hp) as [Hk Hkey]. cbn [key_of] in Hk.
  exists k, pre. cbn [finish pruned] in *.
  set (h := map_except "COUNTRY" coerce_int (columns pre)).
  set (g := fun r1 : row =>
              set_cell (col_index "Total_Emigrants" (columns pre))
                (Int (row_total "COUNTRY" (columns pre) r1)) r1).
  assert (Hh : forall r, key_text k (h r) = key_text k r)
    by (intros r; apply key_text_coerced; exact Hk).
  assert (Hg : forall r, In r (rows pre) -> key_text k (g (h r)) = key_text k (h r)).
  { intros r Hin. destruct (Hkey r Hin) as [s Hs].
    apply (key_text_with_total k pre _ (h r) (Str s) Hk).
    unfold h.
    rewrite (nth_error_map_except "COUNTRY" coerce_int (columns pre) r k "COUNTRY" (Str s)
               (col_index_nth _ _ _ Hk) Hs).
    reflexivity. }
  assert (Hsub : forall r1,
             In r1 (drop_duplicates_from [] k (map h (rows pre))) ->
             exists before r after,
               rows pre = before ++ r :: after /\ r1 = h r /\
               forall b, In b before -> key_text k b <> key_text k r).
  { intros r1 Hin.
    apply drop_duplicates_from_first in Hin as (_ & B & A & E & Hfirst).
    apply map_eq_app in E as (before & rest & Hrows & HB & Hrest).
    apply map_eq_cons in Hrest as (r & after & -> & Hr & _).
    exists before, r, after. subst r1 B. repeat split; [exact Hrows |].
    intros b Hb. rewrite <- (Hh b), <- (Hh r).
    apply Hfirst. apply in_map. exact Hb. }
  split; [exact Hp |].
  split; [apply country_finish_key_column; exact Hk |].
  rewrite country_finish_rows. fold h. fold g.
  split; [| split].
  - rewrite map_map.
    rewrite (map_ext_in (fun x => key_text k (g x)) (key_text k)).
    + apply drop_duplicates_from_NoDup.
    + intros r1 Hin. destruct (Hsub r1 Hin) as (before & r & after & E & -> & _).
      apply Hg. rewrite E. apply in_or_app. right. left. reflexivity.
  - intros r Hin.
    destruct (drop_duplicates_from_keeps [] k (map h (rows pre)) (h r)) as (r1 & Hin1 & Hk1).
    + apply in_map. exact Hin.
    + intros [].
    + exists (g r1). split; [apply in_map; exact Hin1 |].
      destruct (Hsub r1 Hin1) as (before & r0 & after & E & -> & _).
      rewrite Hg by (rewrite E; apply in_or_app; right; left; reflexivity).
      rewrite Hk1. apply Hh.
  - intros r' Hin. apply in_map_iff in Hin as (r1 & <- & Hin).
    destruct (Hsub r1 Hin) as (before & r & after & E & -> & Hfirst).
    exists before, r, after. repeat split; try assumption.
    rewrite Hg by (rewrite E; apply in_or_app; right; left; reflexivity).
    apply Hh.
Qed.

End Deduplication.

(** The all-countries sample, where [USA] comes twice. *)
Lemma country_first_occurrence_witness :
  @display_country_data Sample.lib Sample.countries = Some Sample.countries_cleaned /\
  exists k pre,
    @country_pruned Sample.lib Sample.countries = Some (k, pre) /\
    col_index "COUNTRY" (columns Sample.countries_cleaned) = Some k /\
    NoDup (map (@key_text Sample.lib k) (rows Sample.countries_cleaned)) /\
    (forall r, In r (rows pre) ->
       exists r', In r' (rows Sample.countries_cleaned) /\
                  @key_text Sample.lib k r' = @key_text Sample.lib k r) /\
    (forall r', In r' (rows Sample.countries_cleaned) ->
       exists before r after,
         rows pre = before ++ r :: after /\
         (forall b, In b before -> @key_text Sample.lib k b <> @key_text Sample.lib k r) /\
         @key_text Sample.lib k r' = @key_text Sample.lib k r /\
         r' = let r1 := map_except "COUNTRY" (@coerce_int Sample.lib) (columns pre) r in
              set_cell (col_index "Total_Emigrants" (columns pre))
                (Int (row_total "COUNTRY" (columns pre) r1)) r1).
Proof.
  split; [reflexivity |].
  apply (@country_first_occurrence Sample.lib Sample.countries Sample.countries_cleaned).
  reflexivity.
Defined.

(** C8 as stated fails in the civil-status pipeline, which has no
    deduplication: both rows of the year 1988 are in the cleaned table. *)
Lemma dedup_counterexample :
  @civil_cleaned Sample.lib Sample.civil_repeated
  = Some {| columns := civil_expected_cols;
            rows := [[Str "1988"; Int 10; Int 20; Int 1; Int 2; Int 3; Int 4; Int 40];
                     [Str "1988"; Int 11; Int 21; Int 1; Int 2; Int 3; Int 4; Int 42];
                     [Str "1989"; Int 12; Int 22; Int 1; Int 2; Int 3; Int 4; Int 44]] |}.
Proof.
  reflexivity.
Qed.

(* ================================================================== *)
(** ** Denylisted rows *)

Section Denylist.

Context {lib : Pandas}.





End Denylist.



(* ================================================================== *)
(** ** Empty rows and columns *)

Section EmptyRowsAndColumns.

Context {lib : Pandas}.

Lemma existsb_notna_get (r : row) :
  existsb notna r = true <-> exists j, notna (get r j) = true.
Proof.
  split.
  - intros H. apply existsb_exists in H as (c & Hin & Hc).
    apply In_nth_error in Hin as [j Hj]. exists j.
    rewrite (nth_error_get _ _ _ Hj). exact Hc.
  - intros [j Hj]. apply existsb_exists. exists (get r j). split; [| exact Hj].
    apply notna_get in Hj. apply nth_error_In in Hj. exact Hj.
Qed.

(** A kept position of a mask: where the entry lands after selection. *)
Lemma select_position (mask : list bool) (j : nat) :
  nth_error mask j = Some true ->
  exists j',
    forall (A : Type) (l : list A),
      List.length l = List.length mask ->
      (j' < List.length (select mask l))%nat /\
      nth_error (select mask l) j' = nth_error l j.
Proof.
  revert j. induction mask as [| b m IH]; intros [| j] H; simpl in H; try discriminate.
  - inversion H; subst. exists 0%nat. intros A [| x l] Hl; simpl in *; [discriminate |].
    split; [lia | reflexivity].
  - destruct (IH j H) as [j' Hj'].
    destruct b.
    + exists (S j'). intros A [| x l] Hl; simpl in *; [discriminate |].
      injection Hl as Hl. destruct (Hj' A l Hl) as [Hlt Hn].
      split; [lia | exact Hn].
    + exists j'. intros A [| x l] Hl; simpl in *; [discriminate |].
      injection Hl as Hl. apply Hj'. exact Hl.
Qed.


Lemma get_of_nth_error_eq (r r' : row) (j j' : nat) :
  nth_error r' j' = nth_error r j -> get r' j' = get r j.
Proof.
  intros H. unfold get.
  destruct (nth_error r j) as [c |] eqn:E.
  - rewrite (nth_error_nth _ _ _ E), (nth_error_nth _ _ _ H). reflexivity.
  - rewrite !nth_overflow; [reflexivity | |]; apply nth_error_None; assumption.
Qed.


Lemma has_value_mask (rs : list row) (n j : nat) (r : row) :
  (j < n)%nat -> In r rs -> notna (get r j) = true ->
  nth_error (map (column_has_value rs) (seq 0 n)) j = Some true.
Proof.
  intros Hj Hin Hr. rewrite nth_error_map.
  assert (E : nth_error (seq 0 n) j = Some j).
  { rewrite (nth_error_nth' (seq 0 n) 0%nat) by (rewrite length_seq; exact Hj).
    rewrite seq_nth by exact Hj. reflexivity. }
  rewrite E. simpl. f_equal. apply existsb_exists. exists r. split; assumption.
Qed.

(** A value of a row survives the removal of the empty columns. *)
Lemma dropna_cols_keeps_value (df : DataFrame) (r : row) (j : nat) :
  rectangular df -> In r (rows df) -> notna (get r j) = true ->
  exists j',
    get (select (map (column_has_value (rows df)) (seq 0 (List.length (columns df)))) r) j'
    = get r j.
Proof.
  intros Hrect Hin Hv.
  set (n := List.length (columns df)).
  assert (Hlen : List.length r = n)
    by (apply (proj1 (Forall_forall _ _) Hrect); exact Hin).
  assert (Hj : (j < n)%nat).
  { rewrite <- Hlen. apply nth_error_Some. rewrite (notna_get r j Hv). discriminate. }
  destruct (select_position _ j (has_value_mask (rows df) n j r Hj Hin Hv)) as [j' Hj'].
  exists j'. apply get_of_nth_error_eq.
  apply Hj'. rewrite length_map, length_seq. exact Hlen.
Qed.




End EmptyRowsAndColumns.

(* ================================================================== *)
(** ** No missing cell in a cleaned table *)

Section NoMissingCell.

Context {lib : Pandas}.

Lemma In_select {A : Type} (mask : list bool) (l : list A) (x : A) :
  In x (select mask l) -> In x l.
Proof.
  revert l. induction mask as [| b m IH]; intros [| y l] H; simpl in *;
    try contradiction.
  destruct b; [destruct H as [-> | H]; [left; reflexivity |] |];
    right; apply IH; exact H.
Qed.

Lemma NoDup_select {A : Type} (mask : list bool) (l : list A) :
  NoDup l -> NoDup (select mask l).
Proof.
  revert l. induction mask as [| b m IH]; intros [| y l] H; simpl; try constructor.
  inversion H as [| ? ? Hy Hl]; subst.
  destruct b; [| apply IH; exact Hl].
  constructor; [| apply IH; exact Hl].
  intros Hin. apply Hy. apply (In_select m l y Hin).
Qed.

Lemma has_duplicates_NoDup (l : list string) :
  has_duplicates l = false -> NoDup l.
Proof.
  induction l as [| x t IH]; simpl; intros H; [constructor |].
  apply orb_false_iff in H as [Hx Ht].
  constructor; [apply existsb_eqb_not_In; exact Hx | apply IH; exact Ht].
Qed.

Lemma col_index_none (name : string) (cols : list string) :
  col_index name cols = None -> ~ In name cols.
Proof.
  induction cols as [| c t IH]; simpl; intros H; [tauto |].
  destruct (String.eqb c name) eqn:E; [discriminate |].
  apply String.eqb_neq in E.
  destruct (col_index name t); [discriminate |].
  intros [Hc | Hin]; [contradiction | apply IH; [reflexivity | exact Hin]].
Qed.














Lemma finish_keyed (p : pipeline) (k : nat) (pre : DataFrame) :
  keyed (key_of p) k pre -> keyed (key_of p) k (finish p (k, pre)).
Proof.
  intros H. destruct p; cbn [finish snd key_of] in *;
    try (apply keyed_coerce_except; exact H).
  unfold country_finish. cbn [fst snd].
  apply keyed_set_column; [discriminate |].
  apply keyed_drop_duplicates, keyed_coerce_except. exact H.
Qed.




End NoMissingCell.



(* ================================================================== *)
(** ** Reshaping the age table *)

Section Reshape.












End Reshape.


(* ================================================================== *)
(** ** Occupation groups *)

Section Categories.

Context {lib : Pandas}.








End Categories.


(* ================================================================== *)
(** ** The sheets of the place-of-origin workbook *)

Section Sheets.

Context {lib : Pandas}.

(** The loop adds the events of each sheet to the log and reads nothing
    back from it. *)
Lemma run_sheets_log (log : list event) (sheets : list sheet) :
  run_sheets log sheets =
  (log ++ fst (run_sheets [] sheets), snd (run_sheets [] sheets)).
Proof.
  revert log. induction sheets as [| s t IH]; intros log; cbn [run_sheets].
  - cbn [fst snd]. rewrite app_nil_r. reflexivity.
  - destruct (snd (sheet_events s)); cbn [fst snd app]; [reflexivity |].
    rewrite (IH (log ++ fst (sheet_events s))), (IH (fst (sheet_events s))).
    cbn [fst snd]. rewrite app_assoc. reflexivity.
Qed.

(** A run over two lists of sheets: the second list is reached when no
    exception left the first, and it is run as if it were alone. *)
Lemma run_sheets_app (a b : list sheet) :
  run_sheets [] (a ++ b) =
  if snd (run_sheets [] a) then run_sheets [] a
  else (fst (run_sheets [] a) ++ fst (run_sheets [] b), snd (run_sheets [] b)).
Proof.
  induction a as [| s t IH]; cbn [app run_sheets].
  - cbn [fst snd app]. destruct (run_sheets [] b); reflexivity.
  - destruct (snd (sheet_events s)) eqn:E; cbn [fst snd app].
    + reflexivity.
    + rewrite (run_sheets_log (fst (sheet_events s)) (t ++ b)).
      rewrite (run_sheets_log (fst (sheet_events s)) t).
      rewrite IH.
      destruct (snd (run_sheets [] t)) eqn:E2; cbn [fst snd]; rewrite ?E2;
        [reflexivity |].
      rewrite app_assoc. reflexivity.
Qed.

Lemma sheet_events_failure (name : string) (raw : list row) :
  clean_sheet name raw = None ->
  sheet_events (name, Some raw) =
  ([raw_preview name; error_clean name; warning_no_data name], false).
Proof.
  intros H. unfold sheet_events, clean_sheet_guarded. cbn [fst snd]. rewrite H.
  reflexivity.
Qed.

Lemma sheet_events_table (name : string) (raw : list row) (t : DataFrame) :
  clean_sheet name raw = Some t -> is_empty t = false ->
  In (cleaned_preview name t) (fst (sheet_events (name, Some raw))).
Proof.
  intros H He. unfold sheet_events, clean_sheet_guarded. cbn [fst snd]. rewrite H.
  cbn [fst snd app]. rewrite He.
  destruct (sheet_chart name t); cbn [fst]; right; left; reflexivity.
Qed.

(** In a run that no exception leaves, every sheet has its events shown. *)
Lemma run_sheets_shows (sheets : list sheet) (s : sheet) (e : event) :
  snd (run_sheets [] sheets) = false ->
  In s sheets -> In e (fst (sheet_events s)) ->
  In e (fst (run_sheets [] sheets)).
Proof.
  induction sheets as [| x t IH]; intros Hrun Hin He; [contradiction |].
  cbn [run_sheets] in *.
  destruct (snd (sheet_events x)) eqn:E; cbn [fst snd app] in *; [discriminate |].
  rewrite run_sheets_log in Hrun |- *. cbn [fst snd] in *.
  apply in_or_app. destruct Hin as [-> | Hin]; [left; exact He |].
  right. apply IH; assumption.
Qed.

(** C5.  When the cleaning of one sheet raises, that sheet gets the empty
    table, its error and the warning that it has no valid data, and no
    exception leaves its turn of the loop.  Nothing else changes: the page
    shows what it shows for the sheets before it, then these three events,
    then what it shows for the sheets after it, run as if they were alone.
    Every other sheet whose cleaning gives a table with rows has that
    table shown.  (The only exception that can leave the loop comes from
    the chart of a sheet that was cleaned; the statements are about runs
    it does not cut short.) *)
Theorem sheet_isolation (before after : list sheet) (name : string) (raw : list row) :
  clean_sheet name raw = None ->
  clean_sheet_guarded name raw = ([error_clean name], empty_frame) /\
  sheet_events (name, Some raw)
  = ([raw_preview name; error_clean name; warning_no_data name], false) /\
  (snd (display_place_data (Some before)) = false ->
   display_place_data (Some (before ++ (name, Some raw) :: after))
   = (fst (display_place_data (Some before)) ++
      [raw_preview name; error_clean name; warning_no_data name] ++
      fst (display_place_data (Some after)),
      snd (display_place_data (Some after)))) /\
  (forall n g t,
     snd (display_place_data (Some (before ++ (name, Some raw) :: after))) = false ->
     In (n, Some g) (before ++ after) ->
     clean_sheet n g = Some t -> is_empty t = false ->
     In (cleaned_preview n t)
        (fst (display_place_data (Some (before ++ (name, Some raw) :: after))))).
Proof.
  intros H.
  split; [unfold clean_sheet_guarded; rewrite H; reflexivity |].
  split; [apply sheet_events_failure; exact H |].
  split.
  - cbn [display_place_data]. intros Hb.
    rewrite run_sheets_app, Hb.
    change ((name, Some raw) :: after) with ([(name, Some raw)] ++ after).
    rewrite run_sheets_app.
    cbn [run_sheets]. rewrite (sheet_events_failure name raw H).
    cbn [fst snd app]. reflexivity.
  - intros n g t Hrun Hin Hc He. cbn [display_place_data] in *.
    apply (run_sheets_shows _ (n, Some g)); [exact Hrun | |].
    + apply in_app_or in Hin as [Hin | Hin]; apply in_or_app;
        [left | right; right]; exact Hin.
    + apply sheet_events_table; assumption.
Qed.

End Sheets.

(** The sample workbook: the sheet PROVINCE raises, and the sheets REGION
    and MUNICIPALITY have their cleaned tables shown. *)
Lemma sheet_isolation_witness :
  @clean_sheet Sample.lib "PROVINCE" Sample.broken_sheet = None /\
  snd (@display_place_data Sample.lib (Some Sample.workbook)) = false /\
  (exists t, @clean_sheet Sample.lib "REGION" Sample.province_sheet = Some t /\
             In (cleaned_preview "REGION" t)
                (fst (@display_place_data Sample.lib (Some Sample.workbook)))) /\
  (exists t, @clean_sheet Sample.lib "MUNICIPALITY" Sample.province_sheet = Some t /\
             In (cleaned_preview "MUNICIPALITY" t)
                (fst (@display_place_data Sample.lib (Some Sample.workbook)))) /\
  @display_place_data Sample.lib (Some Sample.workbook)
  = (fst (@display_place_data Sample.lib (Some [("REGION", Some Sample.province_sheet)])) ++
     [raw_preview "PROVINCE"; error_clean "PROVINCE"; warning_no_data "PROVINCE"] ++
     fst (@display_place_data Sample.lib
            (Some [("MUNICIPALITY", Some Sample.province_sheet)])),
     false).
Proof.
  assert (H : @clean_sheet Sample.lib "PROVINCE" Sample.broken_sheet = None)
    by reflexivity.
  destruct (@sheet_isolation Sample.lib
              [("REGION", Some Sample.province_sheet)]
              [("MUNICIPALITY", Some Sample.province_sheet)]
              "PROVINCE" Sample.broken_sheet H) as (_ & _ & E & Hothers).
  split; [exact H |].
  split; [reflexivity |].
  split; [| split; [| exact (E eq_refl)]].
  - eexists. split; [reflexivity |].
    apply (Hothers "REGION" Sample.province_sheet);
      [reflexivity | left; reflexivity | reflexivity | reflexivity].
  - eexists. split; [reflexivity |].
    apply (Hothers "MUNICIPALITY" Sample.province_sheet);
      [reflexivity | right; left; reflexivity | reflexivity | reflexivity].
Defined.

(* ================================================================== *)
(** ** Rows of a cleaned sheet *)

Section SheetRows.

Context {lib : Pandas}.





End SheetRows.



(* ================================================================== *)
(** ** Trimming and the labels of a sheet *)

Lemma rstrip_idempotent (s : string) :
  Text.rstrip (Text.rstrip s) = Text.rstrip s.
Proof.
  induction s as [|c t IH]; [reflexivity |].
  cbn [Text.rstrip]. destruct (Text.rstrip t) as [|c' t'] eqn:E.
  - destruct (Text.isspace c) eqn:Ec; [reflexivity |].
    cbn [Text.rstrip]. rewrite Ec. reflexivity.
  - cbn [Text.rstrip] in IH |- *.
    destruct (Text.rstrip t') as [|c'' t''] eqn:E'.
    + destruct (Text.isspace c'); [discriminate IH | rewrite IH; reflexivity].
    + rewrite IH. reflexivity.
Qed.

Lemma lstrip_head (s : string) :
  Text.lstrip s = EmptyString \/
  exists c t, Text.lstrip s = String c t /\ Text.isspace c = false.
Proof.
  induction s as [|c t IH]; [left; reflexivity |].
  cbn [Text.lstrip]. destruct (Text.isspace c) eqn:Ec; [exact IH |].
  right. exists c, t. split; [reflexivity | exact Ec].
Qed.

Lemma rstrip_head (c : ascii) (t : string) :
  Text.isspace c = false -> exists u, Text.rstrip (String c t) = String c u.
Proof.
  intros Hc. cbn [Text.rstrip]. destruct (Text.rstrip t) as [|c' t'].
  - rewrite Hc. exists EmptyString. reflexivity.
  - exists (String c' t'). reflexivity.
Qed.

(** Trimming a trimmed text changes nothing. *)
Lemma strip_idempotent (s : string) : Text.strip (Text.strip s) = Text.strip s.
Proof.
  unfold Text.strip. destruct (lstrip_head s) as [E | (c & t & E & Hc)].
  - rewrite E. reflexivity.
  - rewrite E. destruct (rstrip_head c t Hc) as [u Eu]. rewrite Eu.
    cbn [Text.lstrip]. rewrite Hc. rewrite <- Eu. apply rstrip_idempotent.
Qed.

Lemma all_chars_lstrip (p : ascii -> bool) (s : string) :
  Text.all_chars p s = true -> Text.all_chars p (Text.lstrip s) = true.
Proof.
  induction s as [|c t IH]; [trivial |].
  intros H. cbn [Text.lstrip]. destruct (Text.isspace c); [| exact H].
  cbn [Text.all_chars] in H. apply andb_true_iff in H. apply IH, H.
Qed.

Lemma all_chars_rstrip (p : ascii -> bool) (s : string) :
  Text.all_chars p s = true -> Text.all_chars p (Text.rstrip s) = true.
Proof.
  induction s as [|c t IH]; [trivial |].
  intros H. cbn [Text.all_chars] in H. apply andb_true_iff in H.
  destruct H as [Hc Ht]. specialize (IH Ht). cbn [Text.rstrip].
  destruct (Text.rstrip t) as [|c' t'].
  - destruct (Text.isspace c); [reflexivity |].
    cbn [Text.all_chars]. rewrite Hc. reflexivity.
  - cbn [Text.all_chars] in IH |- *. rewrite Hc, IH. reflexivity.
Qed.

Lemma all_chars_strip (p : ascii -> bool) (s : string) :
  Text.all_chars p s = true -> Text.all_chars p (Text.strip s) = true.
Proof.
  intros H. unfold Text.strip. apply all_chars_rstrip, all_chars_lstrip, H.
Qed.

(** A character of a sanitized label: no punctuation sign of the class
    the code removes, and no space. *)
Lemma sanitized_chars (l : string) :
  Text.all_chars (fun c => negb (is_punct c) && negb (Ascii.eqb c " "))
    (Text.map_chars space_to_underscore (Text.remove_chars is_punct l)) = true.
Proof.
  induction l as [|c t IH]; [reflexivity |].
  cbn [Text.remove_chars]. destruct (is_punct c) eqn:Ec; [exact IH |].
  cbn [Text.map_chars Text.all_chars]. rewrite IH, andb_true_r.
  unfold space_to_underscore. destruct (Ascii.eqb c " ") eqn:Es.
  - reflexivity.
  - rewrite Ec, Es. reflexivity.
Qed.

Lemma remove_chars_none (p : ascii -> bool) (s : string) :
  Text.all_chars (fun c => negb (p c)) s = true -> Text.remove_chars p s = s.
Proof.
  induction s as [|c t IH]; [trivial |].
  cbn [Text.all_chars Text.remove_chars]. intros H.
  apply andb_true_iff in H. destruct H as [Hc Ht].
  apply negb_true_iff in Hc. rewrite Hc, (IH Ht). reflexivity.
Qed.

Lemma map_chars_fixed (f : ascii -> ascii) (p : ascii -> bool) (s : string) :
  (forall c, p c = true -> f c = c) ->
  Text.all_chars p s = true -> Text.map_chars f s = s.
Proof.
  intros Hf. induction s as [|c t IH]; [trivial |].
  cbn [Text.all_chars Text.map_chars]. intros H.
  apply andb_true_iff in H. destruct H as [Hc Ht].
  rewrite (Hf c Hc), (IH Ht). reflexivity.
Qed.

Lemma all_chars_weaken (p q : ascii -> bool) (s : string) :
  (forall c, p c = true -> q c = true) ->
  Text.all_chars p s = true -> Text.all_chars q s = true.
Proof.
  intros Hpq. induction s as [|c t IH]; [trivial |].
  cbn [Text.all_chars]. intros H. apply andb_true_iff in H.
  destruct H as [Hc Ht]. rewrite (Hpq c Hc), (IH Ht). reflexivity.
Qed.

(** X1. The sanitizing of a header label of a sheet (removal of the signs
    * % ( ) and the full stop, spaces turned into underscores, trimming)
    leaves a label without any of these signs and without a space, that is
    already trimmed; sanitizing it again changes nothing. *)
Theorem sanitize_label_idempotent (l : string) :
  Text.all_chars (fun c => negb (is_punct c) && negb (Ascii.eqb c " "))
    (sanitize_label l) = true /\
  Text.strip (sanitize_label l) = sanitize_label l /\
  sanitize_label (sanitize_label l) = sanitize_label l.
Proof.
  assert (Hc : Text.all_chars (fun c => negb (is_punct c) && negb (Ascii.eqb c " "))
                 (sanitize_label l) = true).
  { unfold sanitize_label. apply all_chars_strip, sanitized_chars. }
  split; [exact Hc |]. split.
  - unfold sanitize_label. apply strip_idempotent.
  - unfold sanitize_label at 1.
    rewrite remove_chars_none.
    + rewrite (map_chars_fixed space_to_underscore
                 (fun c => negb (is_punct c) && negb (Ascii.eqb c " "))).
      * unfold sanitize_label. apply strip_idempotent.
      * intros c H. apply andb_true_iff in H. destruct H as [_ H].
        apply negb_true_iff in H. unfold space_to_underscore. rewrite H. reflexivity.
      * exact Hc.
    + revert Hc. apply all_chars_weaken.
      intros c H. apply andb_true_iff in H. apply H.
Qed.

Lemma strip_dot_zero_suffix (s : string) :
  Text.strip_dot_zero (s ++ ".0") = s.
Proof.
  induction s as [|c t IH]; [reflexivity |].
  cbn [String.append Text.strip_dot_zero].
  destruct (String.eqb (String c (t ++ ".0")) ".0") eqn:E.
  - apply String.eqb_eq in E. injection E as _ E.
    destruct t as [|c' t']; [discriminate E |].
    cbn [String.append] in E. injection E as _ E.
    destruct t'; discriminate E.
  - rewrite IH. reflexivity.
Qed.

Lemma lstrip_no_space (s : string) :
  Text.all_chars (fun c => negb (Text.isspace c)) s = true -> Text.lstrip s = s.
Proof.
  destruct s as [|c t]; [trivial |].
  cbn [Text.all_chars Text.lstrip]. intros H. apply andb_true_iff in H.
  destruct H as [H _]. apply negb_true_iff in H. rewrite H. reflexivity.
Qed.

Lemma rstrip_no_space (s : string) :
  Text.all_chars (fun c => negb (Text.isspace c)) s = true -> Text.rstrip s = s.
Proof.
  induction s as [|c t IH]; [trivial |].
  cbn [Text.all_chars Text.rstrip]. intros H. apply andb_true_iff in H.
  destruct H as [Hc Ht]. apply negb_true_iff in Hc. rewrite (IH Ht).
  destruct t; [rewrite Hc |]; reflexivity.
Qed.

Lemma all_chars_app (p : ascii -> bool) (s t : string) :
  Text.all_chars p (s ++ t) = Text.all_chars p s && Text.all_chars p t.
Proof.
  induction s as [|c s IH]; [reflexivity |].
  cbn [String.append Text.all_chars]. rewrite IH. apply andb_assoc.
Qed.

Lemma isdigit_not_space (c : ascii) :
  Text.isdigit c = true -> negb (Text.isspace c) = true.
Proof.
  destruct c as [[] [] [] [] [] [] [] []]; simpl; intros H;
    try discriminate H; reflexivity.
Qed.

Section HeaderLabels.

Context {lib : Pandas}.

(** X2. A header cell of a sheet that holds a year as a float, printed as
    its digits followed by [.0], becomes the label made of the digits
    alone: the [.0] that the conversion to text adds is removed again.  A
    text cell made of digits is kept as it is. *)
Theorem header_label_year (q : Q) (s : string) :
  Text.all_chars Text.isdigit s = true ->
  float_str q = (s ++ ".0")%string ->
  header_label (Flt q) = s /\ header_label (Str s) = s.
Proof.
  intros Hd Hq.
  assert (Hs : Text.all_chars (fun c => negb (Text.isspace c)) s = true).
  { revert Hd. apply all_chars_weaken, isdigit_not_space. }
  assert (Hs' : Text.all_chars (fun c => negb (Text.isspace c)) (s ++ ".0") = true).
  { rewrite all_chars_app, Hs. reflexivity. }
  unfold header_label, Text.strip. cbn [astype_str]. rewrite Hq. split.
  - rewrite (lstrip_no_space _ Hs'), (rstrip_no_space _ Hs').
    apply strip_dot_zero_suffix.
  - rewrite (lstrip_no_space _ Hs), (rstrip_no_space _ Hs).
    clear Hq Hs Hs'. induction s as [|c t IH]; [reflexivity |].
    cbn [Text.all_chars] in Hd. apply andb_true_iff in Hd. destruct Hd as [Hc Ht].
    cbn [Text.strip_dot_zero].
    destruct (String.eqb (String c t) ".0") eqn:E.
    + apply String.eqb_eq in E. injection E as E _. subst c. discriminate Hc.
    + rewrite (IH Ht). reflexivity.
Qed.

End HeaderLabels.

Lemma header_label_year_witness :
  Text.all_chars Text.isdigit "1988" = true /\
  @float_str Sample.lib 1988 = "1988.0" /\
  @header_label Sample.lib (Flt 1988) = "1988" /\
  @header_label Sample.lib (Str "1988") = "1988".
Proof.
  split; [reflexivity |]. split; [reflexivity |].
  apply (@header_label_year Sample.lib 1988 "1988"); reflexivity.
Defined.

(* ================================================================== *)
(** ** The two orders of the pruning, and tables without any value *)

Section PruningOrder.

Context {lib : Pandas}.

Lemma existsb_filter_same {A : Type} (f p : A -> bool) (l : list A) :
  (forall x, f x = true -> p x = true) ->
  existsb f (filter p l) = existsb f l.
Proof.
  intros Hfp. induction l as [|x t IH]; [reflexivity |].
  cbn [filter existsb]. destruct (p x) eqn:Ep.
  - cbn [existsb]. rewrite IH. reflexivity.
  - destruct (f x) eqn:Ef; [rewrite (Hfp x Ef) in Ep; discriminate Ep |].
    rewrite IH. reflexivity.
Qed.

Lemma column_has_value_dropna (rs : list row) (j : nat) :
  column_has_value (filter (existsb notna) rs) j = column_has_value rs j.
Proof.
  unfold column_has_value. apply existsb_filter_same.
  intros r H. apply existsb_notna_get. exists j. exact H.
Qed.

Lemma filter_map_commute {A B : Type} (p : B -> bool) (q : A -> bool)
    (g : A -> B) (l : list A) :
  (forall x, In x l -> p (g x) = q x) ->
  filter p (map g l) = map g (filter q l).
Proof.
  induction l as [|x t IH]; intros H; [reflexivity |].
  cbn [map filter]. rewrite (H x (or_introl eq_refl)).
  rewrite IH; [| intros y Hy; apply H; right; exact Hy].
  destruct (q x); reflexivity.
Qed.

Lemma existsb_notna_select (df : DataFrame) (r : row) :
  rectangular df -> In r (rows df) ->
  existsb notna
    (select (map (column_has_value (rows df)) (seq 0 (List.length (columns df)))) r)
  = existsb notna r.
Proof.
  intros Hrect Hin.
  destruct (existsb notna r) eqn:E.
  - apply existsb_notna_get in E. destruct E as [j Hj].
    destruct (dropna_cols_keeps_value df r j Hrect Hin Hj) as [j' Hj'].
    apply existsb_notna_get. exists j'. rewrite Hj'. exact Hj.
  - destruct (existsb notna (select _ r)) eqn:E'; [| reflexivity].
    apply existsb_exists in E'. destruct E' as (c & Hc & Hn).
    apply In_select in Hc.
    assert (existsb notna r = true) as E2
      by (apply existsb_exists; exists c; split; assumption).
    rewrite E2 in E. discriminate E.
Qed.

(** X3. On a table with one cell per column, dropping the empty rows and
    then the empty columns (the all-countries pipeline) gives the same
    table as dropping the empty columns and then the empty rows (the
    occupation, sex, civil-status and education pipelines). *)
Theorem dropna_orders_agree (df : DataFrame) :
  rectangular df ->
  dropna_rows (dropna_cols df) = dropna_cols (dropna_rows df).
Proof.
  intros Hrect.
  unfold dropna_rows, dropna_cols, select_columns, filter_rows. cbn [columns rows].
  assert (Hmask : map (column_has_value (filter (existsb notna) (rows df)))
                    (seq 0 (List.length (columns df)))
                  = map (column_has_value (rows df)) (seq 0 (List.length (columns df)))).
  { apply map_ext. intros j. apply column_has_value_dropna. }
  unfold row in *. rewrite Hmask. f_equal.
  apply filter_map_commute. intros r Hr.
  apply existsb_notna_select; assumption.
Qed.

Lemma col_index_In (name : string) (cols : list string) :
  In name cols -> exists j, col_index name cols = Some j.
Proof.
  intros H. destruct (col_index name cols) as [j|] eqn:E.
  - exists j. reflexivity.
  - exfalso. exact (col_index_none _ _ E H).
Qed.





End PruningOrder.

Lemma dropna_orders_agree_witness :
  rectangular Sample.countries /\
  dropna_rows (dropna_cols Sample.countries) = dropna_cols (dropna_rows Sample.countries).
Proof.
  assert (H : rectangular Sample.countries) by (repeat constructor).
  split; [exact H |]. apply (dropna_orders_agree Sample.countries H).
Defined.


(* ================================================================== *)
(** ** The header override and the lookup of the key column *)

Section KeyLookup.

Context {lib : Pandas}.




Lemma key_of_expected (p : pipeline) :
  p <> Country -> In (key_of p) (expected_of p).
Proof.
  destruct p; intros H; try (left; reflexivity). exfalso. apply H. reflexivity.
Qed.




End KeyLookup.



(* ================================================================== *)
(** ** The long tables of the charts *)

Section LongTables.

Context {lib : Pandas}.


Lemma positions_some (names cols : list string) :
  (forall x, In x names -> In x cols) ->
  exists js, positions names cols = Some js.
Proof.
  induction names as [|n t IH]; intros H; [exists []; reflexivity |].
  destruct (col_index_In n cols (H n (or_introl eq_refl))) as [j Hj].
  destruct IH as [js Hjs]; [intros x Hx; apply H; right; exact Hx |].
  exists (j :: js). cbn [positions]. rewrite Hj, Hjs. reflexivity.
Qed.

Lemma positions_none (names cols : list string) :
  positions names cols = None -> exists x, In x names /\ ~ In x cols.
Proof.
  induction names as [|n t IH]; intros H; [discriminate H |].
  cbn [positions] in H. destruct (col_index n cols) as [j|] eqn:Ej.
  - cbn [bind] in H. destruct (positions t cols) as [js|] eqn:Ejs; [discriminate H |].
    destruct (IH eq_refl) as (x & Hx & Hn). exists x. split; [right; exact Hx | exact Hn].
  - exists n. split; [left; reflexivity | apply col_index_none, Ej].
Qed.

(** [melt] raises exactly when the name of the value column is taken or
    when a label it is given is missing. *)
Lemma melt_none (id_vars value_vars : list string) (value_name : string)
    (df : DataFrame) :
  melt id_vars value_vars value_name df = None <->
  In value_name (columns df) \/
  exists x, In x (id_vars ++ value_vars) /\ ~ In x (columns df).
Proof.
  unfold melt. destruct (existsb (String.eqb value_name) (columns df)) eqn:E.
  - apply existsb_eqb_In in E. split; [left; exact E | reflexivity].
  - apply existsb_eqb_not_In in E. split.
    + intros H. right.
      destruct (positions id_vars (columns df)) as [ip|] eqn:Ei.
      * cbn [bind] in H.
        destruct (positions value_vars (columns df)) as [vp|] eqn:Ev; [discriminate H |].
        destruct (positions_none _ _ Ev) as (x & Hx & Hn).
        exists x. split; [apply in_or_app; right; exact Hx | exact Hn].
      * destruct (positions_none _ _ Ei) as (x & Hx & Hn).
        exists x. split; [apply in_or_app; left; exact Hx | exact Hn].
    + intros [H | (x & Hx & Hn)]; [contradiction |].
      destruct (positions id_vars (columns df)) as [ip|] eqn:Ei; [| reflexivity].
      cbn [bind].
      destruct (positions value_vars (columns df)) as [vp|] eqn:Ev; [| reflexivity].
      exfalso. apply in_app_or in Hx. destruct Hx as [Hx | Hx].
      * clear Ev. revert ip Ei. induction id_vars as [|n t IH]; intros ip Ei; [destruct Hx |].
        cbn [positions] in Ei. apply bind_some in Ei. destruct Ei as (j & Hj & Ei).
        apply bind_some in Ei. destruct Ei as (js & Hjs & _).
        destruct Hx as [-> | Hx].
        -- apply Hn. apply col_index_nth in Hj. eapply nth_error_In, Hj.
        -- exact (IH Hx js Hjs).
      * clear Ei. revert vp Ev. induction value_vars as [|n t IH]; intros vp Ev; [destruct Hx |].
        cbn [positions] in Ev. apply bind_some in Ev. destruct Ev as (j & Hj & Ev).
        apply bind_some in Ev. destruct Ev as (js & Hjs & _).
        destruct Hx as [-> | Hx].
        -- apply Hn. apply col_index_nth in Hj. eapply nth_error_In, Hj.
        -- exact (IH Hx js Hjs).
Qed.


End LongTables.

Section OccupationViews.

Context {lib : Pandas}.




End OccupationViews.


(* ================================================================== *)
(** ** The texts of the key column *)

Section KeyTexts.

Context {lib : Pandas}.

Lemma key_texts_weaken (P Q : string -> Prop) (k : nat) (df : DataFrame) :
  (forall s, P s -> Q s) -> key_texts P k df -> key_texts Q k df.
Proof.
  intros HPQ H r Hr. destruct (H r Hr) as (s & Hs & HP).
  exists s. split; [exact Hs | apply HPQ, HP].
Qed.

Lemma key_texts_key_rows (key : string) (df out : DataFrame) (k : nat) :
  key_rows key df = Some (k, out) ->
  key_texts (fun s => Text.strip s = s) k out.
Proof.
  intros H r Hr.
  destruct (key_rows_text key df out k r H Hr) as (r0 & _ & _ & Hn).
  eexists. split; [exact Hn | apply strip_idempotent].
Qed.

(** A filter on the key cell adds what it tests to what is known of the
    key texts. *)
Lemma key_texts_filter (P Q : string -> Prop) (k : nat) (f : row -> bool)
    (df : DataFrame) :
  (forall r s, nth_error r k = Some (Str s) -> f r = true -> Q s) ->
  key_texts P k df ->
  key_texts (fun s => P s /\ Q s) k (filter_rows f df).
Proof.
  intros Hf H r Hr. cbn [filter_rows rows] in Hr.
  apply filter_In in Hr. destruct Hr as [Hr Hfr].
  destruct (H r Hr) as (s & Hs & HP).
  exists s. split; [exact Hs |]. split; [exact HP | exact (Hf r s Hs Hfr)].
Qed.

Lemma key_texts_filter_rows (P : string -> Prop) (k : nat) (f : row -> bool)
    (df : DataFrame) :
  key_texts P k df -> key_texts P k (filter_rows f df).
Proof.
  intros H r Hr. cbn [filter_rows rows] in Hr.
  apply filter_In in Hr. apply H, Hr.
Qed.

Lemma key_texts_coerce_except (P : string -> Prop) (key : string) (k : nat)
    (f : cell -> cell) (df : DataFrame) :
  col_index key (columns df) = Some k ->
  key_texts P k df -> key_texts P k (coerce_except key f df).
Proof.
  intros Hk H r Hr. cbn [coerce_except rows] in Hr.
  apply in_map_iff in Hr. destruct Hr as (r0 & <- & Hr0).
  destruct (H r0 Hr0) as (s & Hs & HP). exists s. split; [| exact HP].
  rewrite (nth_error_map_except key f (columns df) r0 k key (Str s)
             (col_index_nth _ _ _ Hk) Hs).
  rewrite String.eqb_refl. reflexivity.
Qed.

Lemma key_texts_map_column (P : string -> Prop) (k j : nat) (f : cell -> cell)
    (df : DataFrame) :
  j <> k -> key_texts P k df -> key_texts P k (map_column j f df).
Proof.
  intros Hne H r Hr. cbn [map_column rows] in Hr.
  apply in_map_iff in Hr. destruct Hr as (r0 & <- & Hr0).
  destruct (H r0 Hr0) as (s & Hs & HP). exists s. split; [| exact HP].
  rewrite nth_error_update_at_other by congruence. exact Hs.
Qed.

Lemma key_texts_set_column (P : string -> Prop) (key name : string) (k : nat)
    (f : row -> cell) (df : DataFrame) :
  name <> key -> col_index key (columns df) = Some k ->
  key_texts P k df -> key_texts P k (set_column name f df).
Proof.
  intros Hne Hk H r Hr. unfold set_column in Hr. cbn [rows] in Hr.
  apply in_map_iff in Hr. destruct Hr as (r0 & <- & Hr0).
  destruct (H r0 Hr0) as (s & Hs & HP). exists s. split; [| exact HP].
  apply nth_error_set_cell; [exact Hs |].
  intros j0 Hj0 E. subst j0.
  exact (col_index_distinct name key (columns df) k k Hne Hj0 Hk eq_refl).
Qed.

Lemma key_texts_clean_sex_ratio (P : string -> Prop) (k : nat) (df : DataFrame) :
  col_index "YEAR" (columns df) = Some k ->
  key_texts P k df -> key_texts P k (clean_sex_ratio df).
Proof.
  intros Hk H. unfold clean_sex_ratio.
  destruct (col_index "SEX_RATIO" (columns df)) as [j|] eqn:Ej.
  - apply key_texts_map_column; [| exact H].
    apply (col_index_distinct "SEX_RATIO" "YEAR" (columns df)); try assumption.
    discriminate.
  - apply (key_texts_set_column P "YEAR"); [discriminate | exact Hk | exact H].
Qed.

Lemma key_texts_drop_duplicates (P : string -> Prop) (k j : nat) (df : DataFrame) :
  key_texts P k df -> key_texts P k (drop_duplicates j df).
Proof.
  intros H r Hr. cbn [drop_duplicates rows] in Hr.
  apply drop_duplicates_from_first in Hr. destruct Hr as (_ & before & after & E & _).
  apply H. rewrite E. apply in_or_app. right. left. reflexivity.
Qed.

Lemma key_texts_finish (P : string -> Prop) (p : pipeline) (k : nat) (pre : DataFrame) :
  col_index (key_of p) (columns pre) = Some k ->
  key_texts P k pre -> key_texts P k (finish p (k, pre)).
Proof.
  intros Hk H.
  destruct p; cbn [finish key_of snd] in *;
    try (apply key_texts_coerce_except; assumption).
  unfold country_finish. cbn [fst snd].
  apply (key_texts_set_column P "COUNTRY"); [discriminate | exact Hk |].
  apply key_texts_drop_duplicates, key_texts_coerce_except; assumption.
Qed.

Lemma pruned_key_trimmed (p : pipeline) (df pre : DataFrame) (k : nat) :
  pruned p df = Some (k, pre) ->
  key_texts (fun s => Text.strip s = s) k pre.
Proof.
  destruct p; cbn [pruned]; intros H.
  - unfold country_pruned in H.
    apply bind_some in H. destruct H as (df2 & _ & H).
    apply bind_some in H. destruct H as ([k' pre'] & Hk & H).
    injection H as <- <-. apply key_texts_filter_rows.
    apply (key_texts_key_rows _ _ _ _ Hk).
  - apply (key_texts_key_rows _ _ _ _ H).
  - apply (key_texts_key_rows _ _ _ _ H).
  - apply bind_some in H. destruct H as ([k' pre'] & Hk & H).
    injection H as <- <-. cbn [fst snd].
    apply key_texts_clean_sex_ratio.
    + apply key_rows_keyed in Hk. apply Hk.
    + apply (key_texts_key_rows _ _ _ _ Hk).
  - apply (key_texts_key_rows _ _ _ _ H).
  - unfold educ_pruned in H.
    apply bind_some in H. destruct H as ([k' pre'] & Hk & H).
    injection H as <- <-. cbn [fst snd].
    apply key_texts_filter_rows, key_texts_filter_rows.
    apply (key_texts_key_rows _ _ _ _ Hk).
Qed.

(** X8. In the cleaned table of every pipeline that prunes (all countries,
    major countries, occupation, sex, civil status, education), the key
    cell of every row is a text without white space at either end:
    trimming it again changes nothing. *)
Theorem cleaned_keys_trimmed (p : pipeline) (df out : DataFrame) :
  cleaned p df = Some out ->
  exists k,
    col_index (key_of p) (columns out) = Some k /\
    key_texts (fun s => Text.strip s = s) k out.
Proof.
  intros H. apply cleaned_some in H. destruct H as (k & pre & Hp & ->).
  exists k. pose proof (pruned_keyed p df pre k Hp) as Hkey.
  split.
  - apply (finish_keyed p k pre Hkey).
  - apply key_texts_finish; [apply Hkey |].
    apply (pruned_key_trimmed p df pre k Hp).
Qed.

End KeyTexts.

Lemma cleaned_keys_trimmed_witness :
  @cleaned Sample.lib Country Sample.countries = Some Sample.countries_cleaned /\
  exists k,
    col_index "COUNTRY" (columns Sample.countries_cleaned) = Some k /\
    key_texts (fun s => Text.strip s = s) k Sample.countries_cleaned.
Proof.
  assert (H : @cleaned Sample.lib Country Sample.countries = Some Sample.countries_cleaned)
    by (vm_compute; reflexivity).
  split; [exact H |].
  apply (@cleaned_keys_trimmed Sample.lib Country Sample.countries _ H).
Defined.

(* ================================================================== *)
(** ** Education and sex: the keys kept and the ratio column *)

Section EducationAndSex.

Context {lib : Pandas}.

Lemma drop_matching_key (tokens : list string) (k : nat) (r : row) (s : string) :
  nth_error r k = Some (Str s) ->
  negb (str_contains_any tokens (get r k)) = true ->
  forall tok, In tok tokens -> Text.contains_ci tok s = false.
Proof.
  intros Hs H tok Htok. rewrite (nth_error_get _ _ _ Hs) in H.
  apply negb_true_iff in H. cbn [str_contains_any] in H.
  destruct (Text.contains_ci tok s) eqn:E; [| reflexivity].
  assert (existsb (fun t => Text.contains_ci t s) tokens = true) as E'
    by (apply existsb_exists; exists tok; split; assumption).
  rewrite E' in H. discriminate H.
Qed.

(** X9. In the cleaned education table, the key cell of every row is a
    trimmed text of more than one character that does not contain TOTAL
    in any letter case: the rows of totals and the rows whose key is
    blank or a single character are gone. *)
Theorem education_keys (df out : DataFrame) :
  display_educ_data df = Some out ->
  exists k,
    col_index "EDUCATIONAL_ATTAINMENT" (columns out) = Some k /\
    key_texts (fun s => Text.strip s = s /\
                        Text.contains_ci "TOTAL" s = false /\
                        (1 < String.length s)%nat) k out.
Proof.
  intros H. unfold display_educ_data, educ_pruned in H.
  apply bind_some in H. destruct H as ([k pre] & Hp & H). injection H as <-.
  apply bind_some in Hp. destruct Hp as ([k0 pre0] & Hk & Hp). injection Hp as <- <-.
  cbn [fst snd]. exists k0.
  pose proof (key_rows_keyed _ _ _ _ Hk) as [Hcol _].
  split; [exact Hcol |].
  apply key_texts_coerce_except; [exact Hcol |].
  eapply key_texts_weaken;
    [| apply (key_texts_filter
                (fun s => Text.strip s = s /\ Text.contains_ci "TOTAL" s = false)
                (fun s => (1 < String.length s)%nat));
       [| apply (key_texts_filter (fun s => Text.strip s = s)
                   (fun s => Text.contains_ci "TOTAL" s = false));
          [| apply (key_texts_key_rows _ _ _ _ Hk)]]].
  - intros s [[H1 H2] H3]. repeat split; assumption.
  - intros r s Hs Hf. rewrite (nth_error_get _ _ _ Hs) in Hf.
    cbn [longer_than_one] in Hf. apply Nat.ltb_lt, Hf.
  - intros r s Hs Hf.
    apply (drop_matching_key ["TOTAL"] k0 r s Hs Hf). left. reflexivity.
Qed.







End EducationAndSex.

Lemma education_keys_witness :
  exists out,
    @display_educ_data Sample.lib Tables.education = Some out /\
    rows out = [[Str "College Graduate"; Int 5; Int 6]] /\
    exists k,
      col_index "EDUCATIONAL_ATTAINMENT" (columns out) = Some k /\
      key_texts (fun s => Text.strip s = s /\
                          Text.contains_ci "TOTAL" s = false /\
                          (1 < String.length s)%nat) k out.
Proof.
  destruct (@display_educ_data Sample.lib Tables.education) as [out|] eqn:E;
    [| vm_compute in E; discriminate E].
  exists out. split; [reflexivity |]. split.
  - vm_compute in E. injection E as <-. reflexivity.
  - apply (@education_keys Sample.lib Tables.education out E).
Defined.


(* ================================================================== *)
(** ** Civil status: the table of the chart *)

Section CivilChart.

Context {lib : Pandas}.


End CivilChart.


(* ================================================================== *)
(** ** Place of origin: the table of a cleaned sheet *)

Section CleanedSheet.

Context {lib : Pandas}.

Lemma In_skipn {A : Type} (n : nat) (l : list A) (x : A) :
  In x (skipn n l) -> In x l.
Proof.
  intros H. rewrite <- (firstn_skipn n l). apply in_or_app. right. exact H.
Qed.

Lemma rectangular_relabel (f : string -> string) (df : DataFrame) :
  rectangular df ->
  rectangular {| columns := map f (columns df); rows := rows df |}.
Proof.
  unfold rectangular. cbn [columns rows]. rewrite length_map. trivial.
Qed.

Lemma sheet_header_rectangular (raw : list row) (df : DataFrame) (n : nat) :
  Forall (fun r : row => List.length r = n) raw ->
  sheet_header raw = Some df -> rectangular df.
Proof.
  intros Hraw H. unfold sheet_header in H.
  destruct (nth_error raw 2) as [header|] eqn:Hh; [| discriminate H].
  cbn [bind] in H.
  assert (Hgoal : forall d, Some d = Some df -> rectangular d -> rectangular df).
  { intros d E. injection E as ->. trivial. }
  apply (Hgoal _ H).
  apply rectangular_relabel, rectangular_select_columns, rectangular_select_columns.
  rewrite Forall_forall in Hraw.
  unfold rectangular. cbn [columns rows]. apply Forall_forall. intros r Hr.
  rewrite length_map.
  rewrite (Hraw r (In_skipn _ _ _ Hr)).
  symmetry. apply Hraw. eapply nth_error_In, Hh.
Qed.

Lemma sheet_rows_columns (name first : string) (df : DataFrame) :
  columns (sheet_rows name first df) = columns df.
Proof.
  unfold sheet_rows. destruct (String.eqb name "REGION"); reflexivity.
Qed.

Lemma sheet_rows_rectangular (name first : string) (df : DataFrame) :
  rectangular df -> rectangular (sheet_rows name first df).
Proof.
  intros H. unfold sheet_rows. apply rectangular_coerce_except.
  destruct (String.eqb name "REGION");
    repeat apply rectangular_filter_rows; apply rectangular_map_column, H.
Qed.

Lemma sheet_rows_keys (name first : string) (df : DataFrame) :
  col_index first (columns df) = Some 0%nat ->
  key_texts (sheet_key name) 0 (sheet_rows name first df).
Proof.
  intros Hk. unfold sheet_rows.
  assert (H1 : key_texts (fun s => Text.strip s = s) 0
                 (filter_rows (fun r => notna (get r 0)) (map_column 0 strip_cell df))).
  { intros r Hr. cbn [filter_rows map_column rows] in Hr.
    apply filter_In in Hr. destruct Hr as [Hr Hf].
    apply in_map_iff in Hr. destruct Hr as (r0 & <- & _).
    destruct r0 as [|c0 r0]; cbn [update_at] in *.
    - discriminate Hf.
    - eexists. split; [reflexivity | apply strip_idempotent]. }
  assert (H2 : key_texts (fun s => Text.strip s = s /\ Text.match_word_ci "nan" s = false) 0
                 (filter_rows (fun r => negb (Text.match_word_ci "nan" (key_text 0 r)))
                    (filter_rows (fun r => notna (get r 0)) (map_column 0 strip_cell df)))).
  { apply key_texts_filter; [| exact H1].
    intros r s Hs Hf. unfold key_text in Hf.
    rewrite (nth_error_get _ _ _ Hs) in Hf. apply negb_true_iff in Hf. exact Hf. }
  apply key_texts_coerce_except.
  - destruct (String.eqb name "REGION"); exact Hk.
  - destruct (String.eqb name "REGION") eqn:En.
    + apply String.eqb_eq in En. revert H2. apply key_texts_weaken.
      intros s [Ha Hb]. split; [exact Ha |]. split; [exact Hb |].
      intros Hne. contradiction.
    + eapply key_texts_weaken;
        [| apply (key_texts_filter
                    (fun s => Text.strip s = s /\ Text.match_word_ci "nan" s = false)
                    (fun s => Text.startswith_ci "Region" s = false));
           [| exact H2]].
      * intros s [[Ha Hb] Hc]. split; [exact Ha |]. split; [exact Hb |].
        intros _. exact Hc.
      * intros r s Hs Hf. unfold key_text in Hf.
        rewrite (nth_error_get _ _ _ Hs) in Hf. apply negb_true_iff in Hf. exact Hf.
Qed.

(** The key column of a table with a row survives the removal of the
    empty columns, at the first place. *)
Lemma dropna_cols_first (P : string -> Prop) (df : DataFrame)
    (first : string) (others : list string) :
  rows df <> [] -> columns df = first :: others ->
  key_texts P 0 df ->
  (exists others', columns (dropna_cols df) = first :: others') /\
  key_texts P 0 (dropna_cols df).
Proof.
  intros Hrows Hcols Hkey. unfold dropna_cols, select_columns.
  rewrite Hcols. cbn [List.length seq map].
  assert (Hm : column_has_value (rows df) 0 = true).
  { destruct (rows df) as [|r0 rs] eqn:E; [contradiction |].
    destruct (Hkey r0) as (s & Hs & _); [rewrite E; left; reflexivity |].
    unfold column_has_value. cbn [existsb].
    rewrite (nth_error_get _ _ _ Hs). reflexivity. }
  rewrite Hm. cbn [select columns rows]. split.
  - eexists. reflexivity.
  - intros r Hr. cbn [rows] in Hr. apply in_map_iff in Hr.
    destruct Hr as (r0 & <- & Hr0).
    destruct (Hkey r0 Hr0) as (s & Hs & HP).
    destruct r0 as [|c0 r0]; [discriminate Hs |].
    cbn [nth_error] in Hs. injection Hs as ->.
    exists s. split; [reflexivity | exact HP].
Qed.

(** X12. A sheet of the place-of-origin workbook that is cleaned without
    error gives a table with one cell per column and distinct labels,
    whose first column holds in every row a trimmed text that is not
    [nan] and, except on the sheet REGION, does not start with [Region],
    and whose every other cell is an integer. *)
Theorem clean_sheet_table (name : string) (raw : list row) (t : DataFrame) (n : nat) :
  Forall (fun r : row => List.length r = n) raw ->
  clean_sheet name raw = Some t ->
  (exists first others, columns t = first :: others) /\
  NoDup (columns t) /\
  rectangular t /\
  key_texts (sheet_key name) 0 t /\
  forall r j c, In r (rows t) -> nth_error r (S j) = Some c -> exists z, c = Int z.
Proof.
  intros Hraw H. unfold clean_sheet in H.
  apply bind_some in H. destruct H as ([first pre] & Hnum & H). cbn [fst snd] in H.
  destruct (rows pre) as [|r0 rs] eqn:Erows; [discriminate H |]. injection H as <-.
  unfold sheet_numeric in Hnum.
  apply bind_some in Hnum. destruct Hnum as (df & Hdf & Hnum).
  apply bind_some in Hnum. destruct Hnum as (first' & Hfirst & Hnum).
  destruct (has_duplicates (columns df)) eqn:Hdup; [discriminate Hnum |].
  injection Hnum as -> <-.
  destruct (columns df) as [|c0 others0] eqn:Ecols; [discriminate Hfirst |].
  cbn [hd_error] in Hfirst. injection Hfirst as ->.
  set (sr := sheet_rows name first df) in *.
  assert (Hsrc : columns sr = first :: others0).
  { unfold sr. rewrite sheet_rows_columns. exact Ecols. }
  assert (Hk0 : col_index first (columns df) = Some 0%nat).
  { rewrite Ecols. cbn [col_index]. rewrite String.eqb_refl. reflexivity. }
  assert (Hsrows : rows sr <> []).
  { intros E. unfold dropna_cols, select_columns in Erows. cbn [rows] in Erows.
    rewrite E in Erows. discriminate Erows. }
  destruct (dropna_cols_first (sheet_key name) sr first others0 Hsrows Hsrc
              (sheet_rows_keys name first df Hk0)) as [[others Hc] Hkeys].
  assert (Hnd : NoDup (columns (dropna_cols sr))).
  { unfold dropna_cols, select_columns. cbn [columns]. apply NoDup_select.
    rewrite Hsrc. apply has_duplicates_NoDup, Hdup. }
  assert (Hrect : rectangular (dropna_cols sr)).
  { apply rectangular_dropna_cols. unfold sr. apply sheet_rows_rectangular.
    apply (sheet_header_rectangular raw df n Hraw Hdf). }
  assert (Hk : col_index first (columns (dropna_cols sr)) = Some 0%nat).
  { rewrite Hc. cbn [col_index]. rewrite String.eqb_refl. reflexivity. }
  split; [exists first, others; exact Hc |].
  split; [exact Hnd |].
  split; [apply rectangular_coerce_except, rectangular_filter_rows, Hrect |].
  split; [apply key_texts_coerce_except; [exact Hk |];
          apply key_texts_filter_rows, Hkeys |].
  intros r j c Hr Hj. cbn [coerce_except filter_rows rows columns] in Hr.
  apply in_map_iff in Hr. destruct Hr as (r1 & <- & Hr1).
  apply filter_In in Hr1. destruct Hr1 as [Hr1 _].
  unfold rectangular in Hrect. rewrite Forall_forall in Hrect.
  pose proof (Hrect r1 Hr1) as Hlen.
  assert (Hlt : (S j < List.length r1)%nat).
  { rewrite <- (length_map_except first fill_int (columns (dropna_cols sr)) r1).
    apply nth_error_Some. rewrite Hj. discriminate. }
  destruct (nth_error r1 (S j)) as [c1|] eqn:Ec1; [| apply nth_error_None in Ec1; lia].
  destruct (nth_error (columns (dropna_cols sr)) (S j)) as [l|] eqn:El;
    [| apply nth_error_None in El; lia].
  rewrite (nth_error_map_except first fill_int _ r1 (S j) l c1 El Ec1) in Hj.
  assert (Hne : String.eqb l first = false).
  { apply String.eqb_neq. intros ->. rewrite Hc in El, Hnd. cbn [nth_error] in El.
    apply NoDup_cons_iff in Hnd. destruct Hnd as [Hnot _].
    apply Hnot. eapply nth_error_In, El. }
  rewrite Hne in Hj. injection Hj as <-. eexists. reflexivity.
Qed.

End CleanedSheet.

Lemma clean_sheet_table_witness :
  Forall (fun r : row => List.length r = 4%nat) Sample.province_sheet /\
  exists t,
    @clean_sheet Sample.lib "PROVINCE" Sample.province_sheet = Some t /\
    NoDup (columns t) /\ rectangular t /\
    key_texts (sheet_key "PROVINCE") 0 t.
Proof.
  assert (Hraw : Forall (fun r : row => List.length r = 4%nat) Sample.province_sheet)
    by (repeat constructor).
  split; [exact Hraw |].
  destruct (@clean_sheet Sample.lib "PROVINCE" Sample.province_sheet) as [t|] eqn:E;
    [| vm_compute in E; discriminate E].
  exists t. split; [reflexivity |].
  destruct (@clean_sheet_table Sample.lib "PROVINCE" Sample.province_sheet t 4 Hraw E)
    as (_ & H1 & H2 & H3 & _).
  repeat split; assumption.
Defined.

(* ================================================================== *)
(** ** Place of origin: what the page shows for a sheet *)

Section SheetOutcomes.

Context {lib : Pandas}.

Lemma clean_sheet_columns (name : string) (raw : list row) (t : DataFrame) :
  clean_sheet name raw = Some t ->
  exists first others, columns t = first :: others.
Proof.
  intros H. unfold clean_sheet in H.
  apply bind_some in H. destruct H as ([first pre] & Hnum & H). cbn [fst snd] in H.
  destruct (rows pre) as [|r0 rs] eqn:Erows; [discriminate H |]. injection H as <-.
  unfold sheet_numeric in Hnum.
  apply bind_some in Hnum. destruct Hnum as (df & Hdf & Hnum).
  apply bind_some in Hnum. destruct Hnum as (first' & Hfirst & Hnum).
  destruct (has_duplicates (columns df)); [discriminate Hnum |].
  injection Hnum as -> <-.
  destruct (columns df) as [|c0 others0] eqn:Ecols; [discriminate Hfirst |].
  cbn [hd_error] in Hfirst. injection Hfirst as ->.
  assert (Hsrc : columns (sheet_rows name first df) = first :: others0).
  { rewrite sheet_rows_columns. exact Ecols. }
  assert (Hk0 : col_index first (columns df) = Some 0%nat).
  { rewrite Ecols. cbn [col_index]. rewrite String.eqb_refl. reflexivity. }
  assert (Hsrows : rows (sheet_rows name first df) <> []).
  { intros E. unfold dropna_cols, select_columns in Erows. cbn [rows] in Erows.
    rewrite E in Erows. discriminate Erows. }
  destruct (dropna_cols_first (sheet_key name) _ first others0 Hsrows Hsrc
              (sheet_rows_keys name first df Hk0)) as [[others Hc] _].
  exists first, others. exact Hc.
Qed.

Lemma clean_sheet_short (name : string) (raw : list row) :
  (List.length raw < 3)%nat -> clean_sheet name raw = None.
Proof.
  intros H. unfold clean_sheet, sheet_numeric, sheet_header.
  assert (E : nth_error raw 2 = None) by (apply nth_error_None; lia).
  rewrite E. reflexivity.
Qed.

(** X13. What the page shows for a sheet that could be read.  A grid of
    fewer than three rows has no header row: the cleaning raises, the
    error and the warning are shown.  A sheet whose rows all sum to zero
    is cleaned to a table without rows: the warning alone is shown,
    without an error.  A cleaned table with a row is always shown, before
    any chart. *)
Theorem sheet_outcomes (name : string) (raw : list row) :
  ((List.length raw < 3)%nat ->
   sheet_events (name, Some raw)
   = ([raw_preview name; error_clean name; warning_no_data name], false)) /\
  (forall t, clean_sheet name raw = Some t -> rows t = [] ->
   sheet_events (name, Some raw)
   = ([raw_preview name; warning_no_data name], false)) /\
  (forall t, clean_sheet name raw = Some t -> rows t <> [] ->
   exists charts raised,
     sheet_events (name, Some raw)
     = (raw_preview name :: cleaned_preview name t :: charts, raised)).
Proof.
  split; [| split].
  - intros H. apply sheet_events_failure, clean_sheet_short, H.
  - intros t Ht Hrows. unfold sheet_events, clean_sheet_guarded. cbn [fst snd].
    rewrite Ht. cbn [fst snd]. unfold is_empty. rewrite Hrows.
    destruct (columns t); reflexivity.
  - intros t Ht Hrows. unfold sheet_events, clean_sheet_guarded. cbn [fst snd].
    rewrite Ht. cbn [fst snd].
    destruct (clean_sheet_columns name raw t Ht) as (first & others & Hc).
    unfold is_empty. rewrite Hc. destruct (rows t) as [|r rs]; [contradiction |].
    destruct (sheet_chart name t) as [charts|].
    + exists charts, false. reflexivity.
    + exists [], true. reflexivity.
Qed.

Lemma other_columns_In (id_vars cols : list string) (x : string) :
  In x (other_columns id_vars cols) -> In x cols.
Proof. intros H. unfold other_columns in H. apply filter_In in H. apply H. Qed.

(** The melt on the first column raises exactly when a column is already
    named like the value column. *)
Lemma melt_first_none (df : DataFrame) (first : string) (others : list string) :
  columns df = first :: others ->
  melt [first] (other_columns [first] (columns df)) "Emigrants" df = None <->
  In "Emigrants" (columns df).
Proof.
  intros Hc. rewrite melt_none. split.
  - intros [H | (x & Hx & Hn)]; [exact H |].
    exfalso. apply Hn. cbn [app] in Hx. destruct Hx as [<- | Hx].
    + rewrite Hc. left. reflexivity.
    + eapply other_columns_In, Hx.
  - intros H. left. exact H.
Qed.

(** X14. The chart of the sheet of regions, drawn outside any [try],
    raises on a cleaned sheet (distinct labels, a first column) exactly
    when the sheet has a column labelled [Emigrants] (the melt refuses the
    name of its value column) or when its first column is labelled [Year]
    (the long table then has two columns of that name). *)
Theorem region_chart_raises (df : DataFrame) (first : string) (others : list string) :
  NoDup (columns df) ->
  columns df = first :: others ->
  region_chart df = None <->
  In "Emigrants" (columns df) \/ first = "Year".
Proof.
  intros _ Hc. unfold region_chart. rewrite Hc. cbn [hd_error bind].
  cbn [remove_noise filter_rows map_column columns]. rewrite Hc.
  pose proof (melt_first_none (remove_noise noise_label (map_column 0 strip_cell df))
                first others Hc) as Hm.
  cbn [remove_noise filter_rows map_column columns] in Hm. rewrite Hc in Hm.
  match type of Hm with
  | ?m = None <-> _ => destruct m as [ms|] eqn:Em
  end.
  - cbn [bind]. destruct (String.eqb first "Year") eqn:Ey.
    + apply String.eqb_eq in Ey. split; [intros _; right; exact Ey | reflexivity].
    + apply String.eqb_neq in Ey. split; [discriminate |].
      intros [H | H]; [| contradiction].
      apply Hm in H. discriminate H.
  - cbn [bind]. split; [| reflexivity].
    intros _. left. apply Hm. reflexivity.
Qed.

(** X15. An exception leaves the loop over the sheets only from the chart
    of a sheet whose name is REGION in some letter case; the page then
    shows what it showed up to the cleaned table of that sheet, and
    nothing of the sheets that follow. *)
Theorem exception_ends_page (before after : list sheet) (s : sheet) :
  snd (sheet_events s) = true ->
  Text.upper (fst s) = "REGION" /\
  (snd (display_place_data (Some before)) = false ->
   display_place_data (Some (before ++ s :: after))
   = (fst (display_place_data (Some before)) ++ fst (sheet_events s), true)).
Proof.
  intros Hs. split.
  - destruct s as [name [raw|]]; [| discriminate Hs].
    unfold sheet_events in Hs. cbn [fst snd] in Hs |- *.
    destruct (is_empty (snd (clean_sheet_guarded name raw))); [discriminate Hs |].
    unfold sheet_chart in Hs.
    destruct (String.eqb (Text.upper name) "REGION") eqn:E;
      [apply String.eqb_eq, E |].
    destruct (String.eqb (Text.upper name) "PROVINCE"); [discriminate Hs |].
    destruct (String.eqb (Text.upper name) "MUNICIPALITY"); discriminate Hs.
  - intros Hb. cbn [display_place_data] in *.
    rewrite run_sheets_app, Hb. cbn [run_sheets]. rewrite Hs.
    cbn [fst snd app]. reflexivity.
Qed.

End SheetOutcomes.

Lemma sheet_outcomes_witness :
  exists t,
    @clean_sheet Sample.lib "MUNICIPALITY" Tables.zero_sheet = Some t /\
    rows t = [] /\
    @sheet_events Sample.lib ("MUNICIPALITY", Some Tables.zero_sheet)
    = ([raw_preview "MUNICIPALITY"; warning_no_data "MUNICIPALITY"], false).
Proof.
  destruct (@clean_sheet Sample.lib "MUNICIPALITY" Tables.zero_sheet) as [t|] eqn:E;
    [| vm_compute in E; discriminate E].
  assert (Hrows : rows t = []) by (vm_compute in E; injection E as <-; reflexivity).
  exists t. split; [reflexivity |]. split; [exact Hrows |].
  exact (proj1 (proj2 (@sheet_outcomes Sample.lib "MUNICIPALITY" Tables.zero_sheet))
           t E Hrows).
Defined.

Lemma region_chart_raises_witness :
  exists t,
    @clean_sheet Sample.lib "REGION" Tables.region_sheet = Some t /\
    columns t = ["REGION"; "1988"; "Emigrants"] /\
    @region_chart Sample.lib t = None.
Proof.
  destruct (@clean_sheet Sample.lib "REGION" Tables.region_sheet) as [t|] eqn:E;
    [| vm_compute in E; discriminate E].
  assert (Hc : columns t = ["REGION"; "1988"; "Emigrants"])
    by (vm_compute in E; injection E as <-; reflexivity).
  assert (Hnd : NoDup (columns t)).
  { rewrite Hc. repeat constructor; cbn; intros H; intuition discriminate. }
  exists t. split; [reflexivity |]. split; [exact Hc |].
  apply (proj2 (@region_chart_raises Sample.lib t "REGION" ["1988"; "Emigrants"] Hnd Hc)).
  left. rewrite Hc. right. right. left. reflexivity.
Defined.

Lemma exception_ends_page_witness :
  snd (@sheet_events Sample.lib ("REGION", Some Tables.region_sheet)) = true /\
  snd (@display_place_data Sample.lib (Some [("PROVINCE", Some Sample.province_sheet)]))
  = false /\
  @display_place_data Sample.lib (Some Tables.region_workbook)
  = (fst (@display_place_data Sample.lib (Some [("PROVINCE", Some Sample.province_sheet)]))
     ++ fst (@sheet_events Sample.lib ("REGION", Some Tables.region_sheet)),
     true).
Proof.
  assert (Hs : snd (@sheet_events Sample.lib ("REGION", Some Tables.region_sheet)) = true)
    by (vm_compute; reflexivity).
  assert (Hb : snd (@display_place_data Sample.lib
                      (Some [("PROVINCE", Some Sample.province_sheet)])) = false)
    by (vm_compute; reflexivity).
  split; [exact Hs |]. split; [exact Hb |].
  exact (proj2 (@exception_ends_page Sample.lib
                  [("PROVINCE", Some Sample.province_sheet)]
                  [("MUNICIPALITY", Some Sample.province_sheet)]
                  ("REGION", Some Tables.region_sheet) Hs) Hb).
Defined.

(* ================================================================== *)
(** ** Age: when the reshape raises, and the years it reads *)


(** X16. On a table with distinct labels, the reshape of the age table
    raises exactly when the table has no column, when one of its columns
    is already labelled [Emigrants], or when its first column is labelled
    [Year]. *)
Theorem reshape_age_raises (df : DataFrame) :
  NoDup (columns df) ->
  reshape_age df = None <->
  columns df = [] \/ In "Emigrants" (columns df) \/ hd_error (columns df) = Some "Year".
Proof.
  intros _. unfold reshape_age.
  destruct (columns df) as [|first others] eqn:Hc.
  - cbn [hd_error bind]. split; [intros _; left; reflexivity | reflexivity].
  - cbn [hd_error bind].
    pose proof (melt_first_none df first others Hc) as Hm. rewrite Hc in Hm.
    destruct (melt [first] (other_columns [first] (first :: others)) "Emigrants" df)
      as [ms|] eqn:Em.
    + cbn [bind]. destruct (String.eqb first "Year") eqn:Ey.
      * apply String.eqb_eq in Ey. subst first.
        split; [intros _; right; right; reflexivity | reflexivity].
      * apply String.eqb_neq in Ey. split; [discriminate |].
        intros [H | [H | H]].
        -- discriminate H.
        -- apply Hm in H. discriminate H.
        -- injection H as H. contradiction.
    + cbn [bind]. split; [| reflexivity].
      intros _. right. left. apply Hm. reflexivity.
Qed.


Lemma reshape_age_raises_witness :
  NoDup (columns Tables.blank) /\
  ~ (columns Tables.blank = [] \/ In "Emigrants" (columns Tables.blank) \/
     hd_error (columns Tables.blank) = Some "Year") /\
  reshape_age Tables.blank <> None.
Proof.
  assert (Hnd : NoDup (columns Tables.blank)).
  { cbn. repeat constructor; cbn; intros H; intuition discriminate. }
  assert (Hno : ~ (columns Tables.blank = [] \/ In "Emigrants" (columns Tables.blank) \/
                   hd_error (columns Tables.blank) = Some "Year")).
  { cbn. intuition discriminate. }
  split; [exact Hnd |]. split; [exact Hno |].
  intros H. apply Hno. apply (proj1 (reshape_age_raises Tables.blank Hnd)). exact H.
Defined.


(* ================================================================== *)
(** ** Totals *)

Section Totals.

Context {lib : Pandas}.








End Totals.



Section PlaceTotals.

Context {lib : Pandas}.


End PlaceTotals.


(* ================================================================== *)
(** ** Education: the cells of the heat map *)

Section HeatMap.

Context {lib : Pandas}.








End HeatMap.


(* ================================================================== *)
(** ** Place of origin: a header row that repeats a label *)

Section RepeatedLabels.

Context {lib : Pandas}.







End RepeatedLabels.

